(** * T5 encoder subgraph: signature validation and initial feeds

    A shallow embedding of
    [onnxruntime/contrib_ops/cpu/transformers/subgraph_t5_encoder.cc]:
    [T5EncoderSubgraph::Validate] and [T5EncoderSubgraph::CreateInitialFeeds],
    with the properties their specification states about them.

    Both member functions return a [Status] and mutate objects they reach by
    reference ([*this], the feed vector, the sequence-length span, the scratch
    buffer).  They are embedded in a state-and-error monad whose outcomes also
    record C++ undefined behaviour (an out-of-range [operator[]], a signed
    overflow), so that no theorem silently assumes it away. *)

From stdpp Require Import base numbers list strings option.

Local Open Scope string_scope.
Local Open Scope list_scope.
Local Open Scope Z_scope.

(** ** Statuses *)

Inductive ArgKind : Type := Input | Output.

(** The non-OK statuses.  The C++ code builds them with [ORT_RETURN_IF] from a
    message; the constructors keep the data each message carries. *)
Inductive Error : Type :=
| WrongInputCount (got : Z)
    (* "expect 3 inputs, got:" *)
| WrongOutputCount (got : Z)
    (* "expect >=6 outputs, got:" and
       "number of outputs expected to be 2 + 4 * layers, got:" *)
| NameMismatch (kind : ArgKind) (position : nat) (expected actual : string)
    (* "subgraph input|output <position> shall be named as <expected>, got: " *)
| UnsupportedDataType (kind : ArgKind) (position : nat)
    (* "subgraph input <position> (...) shall have int32 type",
       "subgraph output 0 (logits) shall be float or float16 data type" *)
| ShapeInferenceError (msg : string)
    (* a failure of the shape-derived parameter extraction *)
| NotInitializedError
    (* ORT_ENFORCE: "Setup must be called before CreateInitialFeeds" *)
| HookError (code : Z) (msg : string).
    (* a failure of an external collaborator, opaque here *)

Inductive Status : Type :=
| OK
| NotOK (e : Error).

#[global] Instance ArgKind_eq_dec : EqDecision ArgKind.
Proof. solve_decision. Defined.

#[global] Instance Error_eq_dec : EqDecision Error.
Proof. solve_decision. Defined.

(** ** The state-and-error monad *)

Inductive Outcome (S A : Type) : Type :=
| Returned (a : A) (s : S)   (* normal completion; for a [Status] function, [Status::OK()] *)
| Failed (e : Error) (s : S) (* early exit with a non-OK status (or an exception), state as left *)
| Undefined.                 (* undefined behaviour in C++ *)

Arguments Returned {S A} a s.
Arguments Failed {S A} e s.
Arguments Undefined {S A}.

Definition M (S A : Type) : Type := S → Outcome S A.

#[global] Instance M_ret {S} : MRet (M S) := λ A a s, Returned a s.

#[global] Instance M_bind {S} : MBind (M S) := λ A B f m s,
  match m s with
  | Returned a s' => f a s'
  | Failed e s' => Failed e s'
  | Undefined => Undefined
  end.

Definition get {S} : M S S := λ s, Returned s s.
Definition modify {S} (f : S → S) : M S unit := λ s, Returned tt (f s).
Definition undefined {S A} : M S A := λ _, Undefined.

(** [ORT_RETURN_IF(cond, ...)]: leave with a failure status when [cond] holds. *)
Definition ORT_RETURN_IF {S} (cond : bool) (e : Error) : M S unit :=
  λ s, if cond then Failed e s else Returned tt s.

(** [ORT_RETURN_IF_ERROR(expr)]: leave with the status of [expr] unless it is OK. *)
Definition ORT_RETURN_IF_ERROR {S} (st : Status) : M S unit :=
  λ s, match st with OK => Returned tt s | NotOK e => Failed e s end.

(** [ORT_ENFORCE(ptr != nullptr, ...)]: throws when the pointer is null,
    otherwise gives access to the pointee. *)
Definition ORT_ENFORCE {S A} (ptr : option A) (e : Error) : M S A :=
  λ s, match ptr with Some a => Returned a s | None => Failed e s end.

(** The final state of a run, when there is one. *)
Definition final_state {S A} (o : Outcome S A) : option S :=
  match o with
  | Returned _ s | Failed _ s => Some s
  | Undefined => None
  end.

(** ** C++ integers and vectors *)

Definition INT_MIN : Z := - 2 ^ 31.
Definition INT_MAX : Z := 2 ^ 31 - 1.

(** [static_cast<int>] of a [size_t]: the low 32 bits, read as two's complement. *)
Definition static_cast_int (n : Z) : Z := (n + 2 ^ 31) `mod` 2 ^ 32 - 2 ^ 31.

(** Signed subtraction on [int]; overflow is undefined behaviour. *)
Definition int_sub {S} (a b : Z) : M S Z :=
  if bool_decide (INT_MIN ≤ a - b ≤ INT_MAX) then mret (a - b) else undefined.

(** [v.size()] *)
Definition size {A} (v : list A) : Z := Z.of_nat (length v).

(** [v[i]] on a [std::vector]: out of range is undefined behaviour. *)
Definition vec_at {S A} (v : list A) (i : nat) : M S A :=
  match v !! i with
  | Some x => mret x
  | None => undefined
  end.

(** ** The subgraph signature *)

(** [ONNX_NAMESPACE::TensorProto_DataType] *)
Inductive TensorProto_DataType : Type :=
| TensorProto_DataType_UNDEFINED
| TensorProto_DataType_FLOAT
| TensorProto_DataType_UINT8
| TensorProto_DataType_INT8
| TensorProto_DataType_UINT16
| TensorProto_DataType_INT16
| TensorProto_DataType_INT32
| TensorProto_DataType_INT64
| TensorProto_DataType_STRING
| TensorProto_DataType_BOOL
| TensorProto_DataType_FLOAT16
| TensorProto_DataType_DOUBLE
| TensorProto_DataType_UINT32
| TensorProto_DataType_UINT64
| TensorProto_DataType_COMPLEX64
| TensorProto_DataType_COMPLEX128
| TensorProto_DataType_BFLOAT16.

#[global] Instance TensorProto_DataType_eq_dec : EqDecision TensorProto_DataType.
Proof. solve_decision. Defined.

(** A declared shape: each dimension is a concrete value or symbolic ([None]). *)
Definition TensorShapeProto : Type := list (option Z).

(** Modelled from the spec: the [NodeArg] class is declared outside this file;
    a descriptor carries a name, an element type and a shape.  [Name] is
    [NodeArg::Name()], [elem_type] is
    [TypeAsProto()->tensor_type().elem_type()], and [Shape] is
    [NodeArg::Shape()], which is null when no shape is declared. *)
Record NodeArg : Type := {
  Name : string;
  elem_type : TensorProto_DataType;
  Shape : option TensorShapeProto;
}.

(** ** The subgraph object *)

(** Memory locations, allocators and execution providers are opaque handles
    here; a null [AllocatorPtr] is [None]. *)
Definition OrtMemoryInfo : Type := nat.
Definition AllocatorPtr : Type := option nat.
Definition IExecutionProvider : Type := nat.

(** Modelled from the spec: [SessionState] is declared outside this file.  It
    is what [Setup] binds to the subgraph, queried for an allocator by memory
    location and for the execution provider. *)
Record SessionState : Type := {
  GetAllocator : OrtMemoryInfo → AllocatorPtr;
  execution_provider : IExecutionProvider;
}.

(** Modelled from the spec: the class is declared outside this file.  These
    are the members of [T5EncoderSubgraph] (inherited from [Subgraph]) that the
    two functions read or write, and the model parameters that the parameter
    extraction stores.  [session_state_] is null until [Setup]. *)
Record Subgraph : Type := {
  num_implicit_inputs : Z;
  num_subgraph_inputs : Z;
  num_subgraph_outputs : Z;
  num_heads : Z;
  head_size : Z;
  hidden_size : Z;
  num_layers : Z;
  is_output_float16_ : bool;
  session_state_ : option SessionState;
}.

Definition set_num_layers (v : Z) (s : Subgraph) : Subgraph :=
  {| num_implicit_inputs := num_implicit_inputs s;
     num_subgraph_inputs := num_subgraph_inputs s;
     num_subgraph_outputs := num_subgraph_outputs s;
     num_heads := num_heads s;
     head_size := head_size s;
     hidden_size := hidden_size s;
     num_layers := v;
     is_output_float16_ := is_output_float16_ s;
     session_state_ := session_state_ s |}.

Definition set_is_output_float16_ (v : bool) (s : Subgraph) : Subgraph :=
  {| num_implicit_inputs := num_implicit_inputs s;
     num_subgraph_inputs := num_subgraph_inputs s;
     num_subgraph_outputs := num_subgraph_outputs s;
     num_heads := num_heads s;
     head_size := head_size s;
     hidden_size := hidden_size s;
     num_layers := num_layers s;
     is_output_float16_ := v;
     session_state_ := session_state_ s |}.

(** The part of the object that is not a model parameter. *)
Definition outside_parameters (s : Subgraph) : Z * Z * Z * option SessionState :=
  (num_implicit_inputs s, num_subgraph_inputs s, num_subgraph_outputs s,
   session_state_ s).

(** ** Validate *)

Section Validation.

(** [Subgraph::GetParameters(past_shape, logits_shape, merged_past)] is
    defined with the base class, outside this file: it returns a status and
    may write members of [*this]. *)
Variable GetParameters :
  option TensorShapeProto → option TensorShapeProto → bool →
  Subgraph → Status * Subgraph.

(** Run a member function that returns a [Status] as a value. *)
Definition call (f : Subgraph → Status * Subgraph) : M Subgraph Status :=
  λ s, Returned (f s).1 (f s).2.

(** [ORT_RETURN_IF(args[i]->Name() != expected, ...)] *)
Definition check_name (kind : ArgKind) (args : list NodeArg) (i : nat)
    (expected : string) : M Subgraph unit :=
  a ← vec_at args i;
  ORT_RETURN_IF (bool_decide (Name a ≠ expected))
    (NameMismatch kind i expected (Name a)).

(** [ORT_RETURN_IF(subgraph_inputs[i]->TypeAsProto()->tensor_type().elem_type()
    != TensorProto_DataType_INT32, ...)] *)
Definition check_int32 (subgraph_inputs : list NodeArg) (i : nat) : M Subgraph unit :=
  a ← vec_at subgraph_inputs i;
  ORT_RETURN_IF (bool_decide (elem_type a ≠ TensorProto_DataType_INT32))
    (UnsupportedDataType Input i).

Definition Validate (subgraph_inputs subgraph_outputs : list NodeArg) : M Subgraph unit :=
  this ← get;
  ORT_RETURN_IF (bool_decide (num_subgraph_inputs this ≠ 3))
    (WrongInputCount (num_subgraph_inputs this));;
  ORT_RETURN_IF (bool_decide (num_subgraph_outputs this < 6))
    (WrongOutputCount (num_subgraph_outputs this));;
  d ← int_sub (static_cast_int (size subgraph_outputs)) 2;
  ORT_RETURN_IF (bool_decide (Z.rem d 4 ≠ 0))
    (WrongOutputCount (num_subgraph_outputs this));;
  check_name Input subgraph_inputs 0 "encoder_input_ids";;
  check_name Input subgraph_inputs 1 "encoder_attention_mask";;
  check_name Input subgraph_inputs 2 "decoder_input_ids";;
  check_name Output subgraph_outputs 0 "logits";;
  check_name Output subgraph_outputs 1 "encoder_hidden_states";;
  check_name Output subgraph_outputs 2 "present_key_self_0";;
  check_name Output subgraph_outputs 3 "present_value_self_0";;
  out2 ← vec_at subgraph_outputs 2;
  let past_shape := Shape out2 in
  out0 ← vec_at subgraph_outputs 0;
  let logits_shape := Shape out0 in
  (* Save parameters related to the subgraph. *)
  st ← call (GetParameters past_shape logits_shape false);
  ORT_RETURN_IF_ERROR st;;
  d ← int_sub (static_cast_int (size subgraph_outputs)) 2;
  modify (set_num_layers (Z.quot d 4));;
  check_int32 subgraph_inputs 0;;
  check_int32 subgraph_inputs 1;;
  check_int32 subgraph_inputs 2;;
  out0 ← vec_at subgraph_outputs 0;
  let output_type := elem_type out0 in
  ORT_RETURN_IF (bool_decide (output_type ≠ TensorProto_DataType_FLOAT)
                 && bool_decide (output_type ≠ TensorProto_DataType_FLOAT16))
    (UnsupportedDataType Output 0);;
  modify (set_is_output_float16_
            (bool_decide (output_type = TensorProto_DataType_FLOAT16)));;
  mret tt.

End Validation.

(** Modelled from the spec: [Subgraph::GetParameters] is defined outside this
    file.  The parameter extractor needs a cache shape of rank 4 (batch×beam,
    heads, sequence, head size) with concrete heads and head size, and a logits
    shape whose trailing dimension is concrete and equals heads × head size;
    anything else is a [ShapeInferenceError].  On success it stores
    [num_heads], [head_size] and [hidden_size]. *)
Definition GetParameters_spec (past_shape logits_shape : option TensorShapeProto)
    (merged_past : bool) (s : Subgraph) : Status * Subgraph :=
  match past_shape, logits_shape with
  | Some [_; Some heads; _; Some hsize], Some logits =>
      match list.last logits with
      | Some (Some hidden) =>
          if bool_decide (1 ≤ heads) && bool_decide (1 ≤ hsize)
             && bool_decide (heads * hsize = hidden)
          then (OK,
                {| num_implicit_inputs := num_implicit_inputs s;
                   num_subgraph_inputs := num_subgraph_inputs s;
                   num_subgraph_outputs := num_subgraph_outputs s;
                   num_heads := heads;
                   head_size := hsize;
                   hidden_size := hidden;
                   num_layers := num_layers s;
                   is_output_float16_ := is_output_float16_ s;
                   session_state_ := session_state_ s |})
          else (NotOK (ShapeInferenceError "hidden size does not reconcile"), s)
      | _ => (NotOK (ShapeInferenceError "logits dimension is not concrete"), s)
      end
  | _, _ => (NotOK (ShapeInferenceError "cache shape is not resolvable"), s)
  end.

(** ** CreateInitialFeeds *)

(** Modelled from the spec: [Tensor] is declared outside this file.  A tensor
    of 32-bit integers: where it lives, its dimensions, its elements in
    row-major order. *)
Record Tensor : Type := {
  Location : OrtMemoryInfo;
  dims : list Z;
  data : list Z;
}.

(** An [OrtValue] holds a tensor once allocated; default-constructed it is empty. *)
Definition OrtValue : Type := option Tensor.

(** [IAllocatorUniquePtr<char>]: null, or the bytes of an allocation. *)
Definition IAllocatorUniquePtr_char : Type := option (list Z).

(** What a call of [BeamSearchDeviceHelper::CreateEncoderInputsFunc] leaves: its
    status, the contents of the [sequence_lengths] span it was handed by
    reference, and the three [OrtValue]s it was handed by reference. *)
Record EncoderInputs : Type := {
  encoder_inputs_status : Status;
  sequence_lengths_written : list Z;
  expanded_encoder_input_ids : OrtValue;
  expanded_encoder_attention_mask : OrtValue;
  expanded_decoder_input_ids : OrtValue;
}.

Definition CreateEncoderInputsFunc : Type :=
  Tensor → Z → Z → Z → list Z → AllocatorPtr → EncoderInputs.

(** What a call of [BeamSearchDeviceHelper::AddToFeedsFunc] leaves: its status,
    and the feed vector and scratch buffer it was handed by reference. *)
Record FeedsAdded : Type := {
  add_to_feeds_status : Status;
  feeds_written : list OrtValue;
  buffer_written : IAllocatorUniquePtr_char;
}.

Definition AddToFeedsFunc : Type :=
  IExecutionProvider → OrtValue → OrtValue → OrtValue →
  list OrtValue → IAllocatorUniquePtr_char → FeedsAdded.

(** The caller's objects that [CreateInitialFeeds] receives by reference. *)
Record FeedsState : Type := {
  sequence_lengths : list Z;
  feeds : list OrtValue;
  buffer : IAllocatorUniquePtr_char;
}.

Definition set_sequence_lengths (v : list Z) (st : FeedsState) : FeedsState :=
  {| sequence_lengths := v; feeds := feeds st; buffer := buffer st |}.

Definition set_feeds (v : list OrtValue) (st : FeedsState) : FeedsState :=
  {| sequence_lengths := sequence_lengths st; feeds := v; buffer := buffer st |}.

Definition set_buffer (v : IAllocatorUniquePtr_char) (st : FeedsState) : FeedsState :=
  {| sequence_lengths := sequence_lengths st; feeds := feeds st; buffer := v |}.

(** [v.push_back(x)] *)
Definition push_back {A} (v : list A) (x : A) : list A := v ++ [x].

(** Modelled from the spec: [Subgraph::GetProvider] is defined outside this
    file; it yields the execution provider handle that [Setup] bound. *)
Definition GetProvider (session_state : SessionState) : IExecutionProvider :=
  execution_provider session_state.

(** Create inputs for first inference of subgraph.  [feeds.reserve] only
    changes the capacity of the vector, which a list does not have; the two
    counts it adds are sizes of vectors.  The entries of [implicit_inputs] are
    the pointees of the [const OrtValue*] the caller passes. *)
Definition CreateInitialFeeds (this : Subgraph)
    (encoder_input_ids : Tensor) (implicit_inputs : list OrtValue)
    (num_beams pad_token_id start_token_id : Z)
    (create_encoder_inputs_func : CreateEncoderInputsFunc)
    (add_to_feeds_func : AddToFeedsFunc) : M FeedsState unit :=
  session_state ← ORT_ENFORCE (session_state_ this) NotInitializedError;
  (* Allocate subgraph inputs to be same device as encoder_input_ids *)
  let cpu_alloactor := GetAllocator session_state (Location encoder_input_ids) in
  st ← get;
  let created :=
    create_encoder_inputs_func encoder_input_ids num_beams pad_token_id
      start_token_id (sequence_lengths st) cpu_alloactor in
  modify (set_sequence_lengths (sequence_lengths_written created));;
  ORT_RETURN_IF_ERROR (encoder_inputs_status created);;
  let provider := GetProvider session_state in
  st ← get;
  let added :=
    add_to_feeds_func provider (expanded_encoder_input_ids created)
      (expanded_encoder_attention_mask created)
      (expanded_decoder_input_ids created) (feeds st) (buffer st) in
  modify (set_feeds (feeds_written added));;
  modify (set_buffer (buffer_written added));;
  ORT_RETURN_IF_ERROR (add_to_feeds_status added);;
  modify (λ st, set_feeds (foldl push_back (feeds st) implicit_inputs) st);;
  mret tt.

(** ** The external hooks, as their contract describes them *)

(** The batch size and the sequence length of a [batch × sequence] tensor. *)
Definition batch_size (t : Tensor) : nat := Z.to_nat (default 0 (dims t !! 0%nat)).
Definition sequence_length (t : Tensor) : nat := Z.to_nat (default 0 (dims t !! 1%nat)).

(** The rows of a row-major buffer holding [b] rows of [w] elements. *)
Fixpoint batch_rows (b w : nat) (d : list Z) : list (list Z) :=
  match b with
  | O => []
  | S b' => take w d :: batch_rows b' w (drop w d)
  end.

(** The length of a row: its tokens that are not padding. *)
Definition row_length (pad_token_id : Z) (row : list Z) : Z :=
  size (filter (λ x, x ≠ pad_token_id) row).

(** The attention mask of a row: 0 on padding, 1 elsewhere. *)
Definition attention_mask_row (pad_token_id : Z) (row : list Z) : list Z :=
  (λ x, if bool_decide (x = pad_token_id) then 0 else 1) <$> row.

(** Beam expansion: every entry repeated [num_beams] times contiguously
    (batch-major, beam-minor). *)
Definition expand {A} (num_beams : Z) (l : list A) : list A :=
  l ≫= replicate (Z.to_nat num_beams).

(** Modelled from the spec: the Encoder-Input Expansion hook is defined
    outside this file.  It replicates each original batch row [num_beams] times
    contiguously, and writes into the sequence-length span, from its start, one
    entry per expanded row, so that every beam within a batch row starts with
    an identical sequence length (the length of the original row).  Writes
    beyond the end of the span are dropped. *)
Definition CreateEncoderInputs : CreateEncoderInputsFunc :=
  λ encoder_input_ids num_beams pad_token_id start_token_id sequence_lengths allocator,
    let rows :=
      batch_rows (batch_size encoder_input_ids) (sequence_length encoder_input_ids)
        (data encoder_input_ids) in
    let expanded_dim := Z.of_nat (batch_size encoder_input_ids) * num_beams in
    let tensor d w :=
      Some {| Location := Location encoder_input_ids; dims := [expanded_dim; w]; data := d |} in
    {| encoder_inputs_status := OK;
       sequence_lengths_written :=
         list_inserts 0%nat (expand num_beams (row_length pad_token_id <$> rows))
           sequence_lengths;
       expanded_encoder_input_ids :=
         tensor (concat (expand num_beams rows))
                (Z.of_nat (sequence_length encoder_input_ids));
       expanded_encoder_attention_mask :=
         tensor (concat (expand num_beams (attention_mask_row pad_token_id <$> rows)))
                (Z.of_nat (sequence_length encoder_input_ids));
       expanded_decoder_input_ids :=
         tensor (expand num_beams ((λ _ : list Z, start_token_id) <$> rows)) 1 |}.

(** Modelled from the spec: the Feed Assembly hook is defined outside this
    file.  It places the three expanded tensors into the feed list in the
    order of the contract table and leaves the scratch buffer as it is. *)
Definition AddToFeeds : AddToFeedsFunc :=
  λ provider input_ids attention_mask decoder_input_ids feeds buffer,
    {| add_to_feeds_status := OK;
       feeds_written :=
         push_back (push_back (push_back feeds input_ids) attention_mask) decoder_input_ids;
       buffer_written := buffer |}.

(** A hook that fails with a given error and touches nothing. *)
Definition failing_CreateEncoderInputs (e : Error) : CreateEncoderInputsFunc :=
  λ _ _ _ _ sequence_lengths _,
    {| encoder_inputs_status := NotOK e;
       sequence_lengths_written := sequence_lengths;
       expanded_encoder_input_ids := None;
       expanded_encoder_attention_mask := None;
       expanded_decoder_input_ids := None |}.

Definition failing_AddToFeeds (e : Error) : AddToFeedsFunc :=
  λ _ _ _ _ feeds buffer,
    {| add_to_feeds_status := NotOK e; feeds_written := feeds; buffer_written := buffer |}.

(** ** The contract table *)

Definition contract_names : list (ArgKind * nat * string) :=
  [(Input, 0%nat, "encoder_input_ids");
   (Input, 1%nat, "encoder_attention_mask");
   (Input, 2%nat, "decoder_input_ids");
   (Output, 0%nat, "logits");
   (Output, 1%nat, "encoder_hidden_states");
   (Output, 2%nat, "present_key_self_0");
   (Output, 3%nat, "present_value_self_0")].

Definition args_of (kind : ArgKind) (ins outs : list NodeArg) : list NodeArg :=
  match kind with Input => ins | Output => outs end.

Definition named_as (ins outs : list NodeArg) (entry : ArgKind * nat * string) : Prop :=
  Name <$> args_of entry.1.1 ins outs !! entry.1.2 = Some entry.2.

(** The element-type requirements of the contract table. *)
Definition int32_inputs (ins : list NodeArg) : Prop :=
  Forall (λ a, elem_type a = TensorProto_DataType_INT32) ins.

Definition logits_type (outs : list NodeArg) : option TensorProto_DataType :=
  elem_type <$> outs !! 0%nat.

Definition floating_logits (outs : list NodeArg) : Prop :=
  logits_type outs = Some TensorProto_DataType_FLOAT ∨
  logits_type outs = Some TensorProto_DataType_FLOAT16.

(** The shapes [Validate] hands to the parameter extraction. *)
Definition past_shape_of (outs : list NodeArg) : option TensorShapeProto :=
  outs !! 2%nat ≫= Shape.

Definition logits_shape_of (outs : list NodeArg) : option TensorShapeProto :=
  outs !! 0%nat ≫= Shape.

(** Give the descriptor at a position another name. *)
Definition set_Name (n : string) (a : NodeArg) : NodeArg :=
  {| Name := n; elem_type := elem_type a; Shape := Shape a |}.

Definition rename (kind : ArgKind) (i : nat) (n : string)
    (sig : list NodeArg * list NodeArg) : list NodeArg * list NodeArg :=
  match kind with
  | Input => (alter (set_Name n) i sig.1, sig.2)
  | Output => (sig.1, alter (set_Name n) i sig.2)
  end.

(** The constructor of [Subgraph] takes both counts from the subgraph whose
    inputs and outputs [Setup] later passes to [Validate]; a count is an [int]. *)
Definition well_formed (s : Subgraph) (ins outs : list NodeArg) : Prop :=
  num_subgraph_inputs s = size ins ∧ num_subgraph_outputs s = size outs ∧
  size outs ≤ INT_MAX.

(** The Feed Assembly hook meets its contract on a feed vector: whenever it
    succeeds, it leaves the three tensors it was given at positions 0, 1, 2,
    and nothing else. *)
Definition places_explicit_feeds (add_to_feeds_func : AddToFeedsFunc)
    (feeds : list OrtValue) : Prop :=
  ∀ provider a b c buffer,
    add_to_feeds_status (add_to_feeds_func provider a b c feeds buffer) = OK →
    feeds_written (add_to_feeds_func provider a b c feeds buffer) = [a; b; c].

(** ** A one-layer T5 encoder signature and a first request *)

Definition t5_inputs : list NodeArg :=
  [ {| Name := "encoder_input_ids"; elem_type := TensorProto_DataType_INT32;
       Shape := Some [None; None] |};
    {| Name := "encoder_attention_mask"; elem_type := TensorProto_DataType_INT32;
       Shape := Some [None; None] |};
    {| Name := "decoder_input_ids"; elem_type := TensorProto_DataType_INT32;
       Shape := Some [None; None] |} ].

Definition t5_outputs : list NodeArg :=
  [ {| Name := "logits"; elem_type := TensorProto_DataType_FLOAT16;
       Shape := Some [None; None; Some 512] |};
    {| Name := "encoder_hidden_states"; elem_type := TensorProto_DataType_FLOAT16;
       Shape := Some [None; None; Some 512] |};
    {| Name := "present_key_self_0"; elem_type := TensorProto_DataType_FLOAT16;
       Shape := Some [None; Some 8; None; Some 64] |};
    {| Name := "present_value_self_0"; elem_type := TensorProto_DataType_FLOAT16;
       Shape := Some [None; Some 8; None; Some 64] |};
    {| Name := "present_key_cross_0"; elem_type := TensorProto_DataType_FLOAT16;
       Shape := Some [None; Some 8; None; Some 64] |};
    {| Name := "present_value_cross_0"; elem_type := TensorProto_DataType_FLOAT16;
       Shape := Some [None; Some 8; None; Some 64] |} ].

(** The first input under another name and with 64-bit elements. *)
Definition int64_input_ids : NodeArg :=
  {| Name := "input_ids"; elem_type := TensorProto_DataType_INT64;
     Shape := Some [None; None] |}.

(** The object as constructed for a subgraph with the given counts, before
    [Validate] and [Setup]. *)
Definition constructed (inputs outputs : Z) : Subgraph :=
  {| num_implicit_inputs := 2;
     num_subgraph_inputs := inputs;
     num_subgraph_outputs := outputs;
     num_heads := 0;
     head_size := 0;
     hidden_size := 0;
     num_layers := 0;
     is_output_float16_ := false;
     session_state_ := None |}.

Definition cpu_session : SessionState :=
  {| GetAllocator := λ _, Some 0%nat; execution_provider := 0%nat |}.

(** The object once [Setup] has bound a session state. *)
Definition ready : Subgraph :=
  {| num_implicit_inputs := 2;
     num_subgraph_inputs := 3;
     num_subgraph_outputs := 6;
     num_heads := 8;
     head_size := 64;
     hidden_size := 512;
     num_layers := 1;
     is_output_float16_ := true;
     session_state_ := Some cpu_session |}.

(** Two rows of three tokens, padded with 0. *)
Definition two_rows : Tensor :=
  {| Location := 0%nat; dims := [2; 3]; data := [5; 6; 0; 7; 0; 0] |}.

Definition two_implicit_inputs : list OrtValue := [None; Some two_rows].

(** The caller's objects of a request: a span of [n] entries, no feeds yet. *)
Definition request (n : nat) : FeedsState :=
  {| sequence_lengths := replicate n (-1); feeds := []; buffer := None |}.

(** The inputs with 64-bit elements in the attention mask, names as required. *)
Definition mistyped_inputs : list NodeArg :=
  <[1%nat := {| Name := "encoder_attention_mask";
                elem_type := TensorProto_DataType_INT64;
                Shape := Some [None; None] |}]> t5_inputs.

(** The outputs with a symbolic head count in the first self-attention key. *)
Definition unresolved_outputs : list NodeArg :=
  <[2%nat := {| Name := "present_key_self_0";
                elem_type := TensorProto_DataType_FLOAT16;
                Shape := Some [None; None; None; Some 64] |}]> t5_outputs.

(** The same first four outputs, followed by two outputs of other names,
    element types and shapes. *)
Definition other_cross_outputs : list NodeArg :=
  take 4 t5_outputs ++
  [ {| Name := "cross_key"; elem_type := TensorProto_DataType_INT64; Shape := None |};
    {| Name := "cross_value"; elem_type := TensorProto_DataType_STRING;
       Shape := Some [Some 1] |} ].

(** ** Properties of Validate *)

(** A count that an [int] holds is cast to itself. *)
Lemma static_cast_int_id n : 0 ≤ n ≤ INT_MAX → static_cast_int n = n.
Proof.
  unfold static_cast_int, INT_MAX. intros Hn.
  rewrite Z.mod_small; lia.
Qed.

Lemma int_sub_in_range {S} a b (s : S) :
  INT_MIN ≤ a - b ≤ INT_MAX → int_sub a b s = Returned (a - b) s.
Proof. intros H. unfold int_sub. by rewrite bool_decide_eq_true_2. Qed.

Lemma size_three {A} (l : list A) : size l = 3 → ∃ a b c, l = [a; b; c].
Proof.
  unfold size. destruct l as [|a [|b [|c [|d l]]]]; simpl; try lia.
  intros _. by exists a, b, c.
Qed.

Lemma size_at_least_four {A} (l : list A) :
  4 ≤ size l → ∃ a b c d rest, l = a :: b :: c :: d :: rest.
Proof.
  unfold size. destruct l as [|a [|b [|c [|d l]]]]; simpl; try lia.
  intros _. by exists a, b, c, d, l.
Qed.

Section ValidateProperties.

Variable GetParameters :
  option TensorShapeProto → option TensorShapeProto → bool →
  Subgraph → Status * Subgraph.

(** The first check: the input count. *)
Lemma Validate_wrong_input_count s ins outs :
  num_subgraph_inputs s ≠ 3 →
  Validate GetParameters ins outs s = Failed (WrongInputCount (num_subgraph_inputs s)) s.
Proof.
  intros H. unfold Validate, mbind, M_bind, get, ORT_RETURN_IF.
  by rewrite bool_decide_eq_true_2.
Qed.

(** The second and third checks: the output count. *)
Lemma Validate_wrong_output_count s ins outs :
  num_subgraph_inputs s = 3 → num_subgraph_outputs s = size outs →
  size outs ≤ INT_MAX →
  size outs < 6 ∨ (size outs - 2) `mod` 4 ≠ 0 →
  Validate GetParameters ins outs s = Failed (WrongOutputCount (size outs)) s.
Proof.
  intros Hin Hout Hmax Hbad.
  unfold Validate, mbind, M_bind, get, ORT_RETURN_IF.
  rewrite bool_decide_eq_false_2 by (intros ?; done).
  rewrite Hout.
  destruct (decide (size outs < 6)) as [Hlt|Hge].
  { by rewrite bool_decide_eq_true_2. }
  rewrite bool_decide_eq_false_2 by done.
  rewrite static_cast_int_id by (unfold size in *; lia).
  rewrite int_sub_in_range by (unfold INT_MIN, INT_MAX in *; lia).
  rewrite bool_decide_eq_true_2; [done|].
  rewrite Z.rem_mod_nonneg by lia. destruct Hbad; [lia|done].
Qed.

(** Past the count checks, [Validate] is a cascade: the seven name checks, the
    parameter extraction, the layer count, the four element-type checks. *)
Lemma Validate_checked s i0 i1 i2 o0 o1 o2 o3 rest :
  let ins := [i0; i1; i2] in
  let outs := o0 :: o1 :: o2 :: o3 :: rest in
  num_subgraph_inputs s = 3 → num_subgraph_outputs s = size outs →
  size outs ≤ INT_MAX → 6 ≤ size outs → (size outs - 2) `mod` 4 = 0 →
  Validate GetParameters ins outs s =
    if bool_decide (Name i0 ≠ "encoder_input_ids")
    then Failed (NameMismatch Input 0 "encoder_input_ids" (Name i0)) s
    else if bool_decide (Name i1 ≠ "encoder_attention_mask")
    then Failed (NameMismatch Input 1 "encoder_attention_mask" (Name i1)) s
    else if bool_decide (Name i2 ≠ "decoder_input_ids")
    then Failed (NameMismatch Input 2 "decoder_input_ids" (Name i2)) s
    else if bool_decide (Name o0 ≠ "logits")
    then Failed (NameMismatch Output 0 "logits" (Name o0)) s
    else if bool_decide (Name o1 ≠ "encoder_hidden_states")
    then Failed (NameMismatch Output 1 "encoder_hidden_states" (Name o1)) s
    else if bool_decide (Name o2 ≠ "present_key_self_0")
    then Failed (NameMismatch Output 2 "present_key_self_0" (Name o2)) s
    else if bool_decide (Name o3 ≠ "present_value_self_0")
    then Failed (NameMismatch Output 3 "present_value_self_0" (Name o3)) s
    else
      match GetParameters (Shape o2) (Shape o0) false s with
      | (NotOK e, s1) => Failed e s1
      | (OK, s1) =>
          let s2 := set_num_layers ((size outs - 2) `div` 4) s1 in
          if bool_decide (elem_type i0 ≠ TensorProto_DataType_INT32)
          then Failed (UnsupportedDataType Input 0) s2
          else if bool_decide (elem_type i1 ≠ TensorProto_DataType_INT32)
          then Failed (UnsupportedDataType Input 1) s2
          else if bool_decide (elem_type i2 ≠ TensorProto_DataType_INT32)
          then Failed (UnsupportedDataType Input 2) s2
          else if bool_decide (elem_type o0 ≠ TensorProto_DataType_FLOAT)
                  && bool_decide (elem_type o0 ≠ TensorProto_DataType_FLOAT16)
          then Failed (UnsupportedDataType Output 0) s2
          else Returned tt
                 (set_is_output_float16_
                    (bool_decide (elem_type o0 = TensorProto_DataType_FLOAT16)) s2)
      end.
Proof.
  intros ins outs Hin Hout Hmax Hmin Hdiv.
  assert (Hcast : static_cast_int (size outs) = size outs)
    by (apply static_cast_int_id; lia).
  assert (Hsub : ∀ s', int_sub (S:=Subgraph) (size outs) 2 s' = Returned (size outs - 2) s')
    by (intros s'; apply int_sub_in_range; unfold INT_MIN, INT_MAX in *; lia).
  unfold Validate, mbind, M_bind, get, ORT_RETURN_IF.
  rewrite bool_decide_eq_false_2 by (intros ?; done).
  rewrite Hout, bool_decide_eq_false_2 by lia.
  rewrite Hcast, Hsub.
  rewrite bool_decide_eq_false_2
    by (intros Hrem; apply Hrem; rewrite Z.rem_mod_nonneg by lia; done).
  unfold check_name, check_int32, vec_at, mbind, M_bind, ORT_RETURN_IF, mret, M_ret,
    call, ORT_RETURN_IF_ERROR, modify. simpl.
  repeat (case_bool_decide; [done|]).
  destruct (GetParameters (Shape o2) (Shape o0) false s) as [[|e] s1]; simpl; [|done].
  rewrite Hsub. rewrite Z.quot_div_nonneg by lia.
  repeat (case_bool_decide; simpl; [done|]).
  repeat case_bool_decide; simpl; done.
Qed.


(** The signature as [Validate] indexes it, once the counts are right. *)
Lemma well_formed_counted s ins outs :
  well_formed s ins outs → size ins = 3 → 6 ≤ size outs →
  ∃ i0 i1 i2 o0 o1 o2 o3 rest,
    ins = [i0; i1; i2] ∧ outs = o0 :: o1 :: o2 :: o3 :: rest ∧
    num_subgraph_inputs s = 3 ∧ num_subgraph_outputs s = size outs ∧
    size outs ≤ INT_MAX.
Proof.
  intros (Hin & Hout & Hmax) H3 H6.
  destruct (size_three ins H3) as (i0 & i1 & i2 & ->).
  destruct (size_at_least_four outs) as (o0 & o1 & o2 & o3 & rest & ->); [lia|].
  exists i0, i1, i2, o0, o1, o2, o3, rest. repeat split; congruence.
Qed.

(** The contract names, position by position. *)
Lemma named_as_contract_inv i0 i1 i2 o0 o1 o2 o3 rest :
  Forall (named_as [i0; i1; i2] (o0 :: o1 :: o2 :: o3 :: rest)) contract_names ↔
  Name i0 = "encoder_input_ids" ∧ Name i1 = "encoder_attention_mask" ∧
  Name i2 = "decoder_input_ids" ∧ Name o0 = "logits" ∧
  Name o1 = "encoder_hidden_states" ∧ Name o2 = "present_key_self_0" ∧
  Name o3 = "present_value_self_0".
Proof.
  unfold contract_names. rewrite !Forall_cons_iff.
  unfold named_as. simpl.
  split.
  - intros (? & ? & ? & ? & ? & ? & ? & _). repeat split; congruence.
  - intros (? & ? & ? & ? & ? & ? & ?).
    repeat (split; [congruence|]). constructor.
Qed.

(** A signature that is well formed is never met with undefined behaviour. *)
Lemma Validate_defined s ins outs :
  well_formed s ins outs → is_Some (final_state (Validate GetParameters ins outs s)).
Proof.
  intros Hwf. pose proof Hwf as (Hin & Hout & Hmax).
  destruct (decide (size ins = 3)) as [H3|H3].
  2: { rewrite Validate_wrong_input_count by congruence. by eexists. }
  destruct (decide (size outs < 6 ∨ (size outs - 2) `mod` 4 ≠ 0)) as [Hbad|Hgood].
  { rewrite Validate_wrong_output_count by (done || congruence). by eexists. }
  assert (6 ≤ size outs ∧ (size outs - 2) `mod` 4 = 0) as [H6 Hdiv].
  { split; [lia|]. destruct (decide ((size outs - 2) `mod` 4 = 0)); [done|].
    exfalso. apply Hgood. by right. }
  destruct (well_formed_counted s ins outs Hwf H3 H6)
    as (i0 & i1 & i2 & o0 & o1 & o2 & o3 & rest & -> & -> & Hi & Ho & _).
  rewrite Validate_checked by done.
  repeat (case_bool_decide; [by eexists|]).
  destruct (GetParameters _ _ _ _) as [[|e] s1]; [|by eexists].
  simpl. repeat (case_bool_decide; [by eexists|]).
  destruct (_ && _); by eexists.
Qed.

(** C1.  For every layer count L ≥ 1 (with 2 + 4L outputs, a count that an
    [int] holds), a signature with three inputs named and typed as the
    contract table says, outputs named as it says, a float or float16 first
    output and shapes that the parameter extraction resolves is accepted by
    [Validate]; the object then has [num_layers = L] and
    [is_output_float16_] tells whether output 0 is float16. *)
Theorem Validate_accepts_layer_count (L : Z) s ins outs s1 :
  1 ≤ L →
  well_formed s ins outs →
  size ins = 3 →
  size outs = 2 + 4 * L →
  Forall (named_as ins outs) contract_names →
  int32_inputs ins →
  floating_logits outs →
  GetParameters (past_shape_of outs) (logits_shape_of outs) false s = (OK, s1) →
  ∃ s',
    Validate GetParameters ins outs s = Returned tt s' ∧
    s' = set_is_output_float16_
           (bool_decide (logits_type outs = Some TensorProto_DataType_FLOAT16))
           (set_num_layers L s1) ∧
    num_layers s' = L ∧
    (is_output_float16_ s' = true ↔
     logits_type outs = Some TensorProto_DataType_FLOAT16).
Proof.
  intros HL Hwf H3 Hout Hnames Hint Hfloat Hget.
  destruct (well_formed_counted s ins outs Hwf H3)
    as (i0 & i1 & i2 & o0 & o1 & o2 & o3 & rest & -> & -> & Hi & Ho & Hmax); [lia|].
  apply named_as_contract_inv in Hnames as (N0 & N1 & N2 & N3 & N4 & N5 & N6).
  unfold int32_inputs in Hint. rewrite !Forall_cons_iff in Hint.
  destruct Hint as (T0 & T1 & T2 & _).
  unfold past_shape_of, logits_shape_of in Hget. simpl in Hget.
  unfold floating_logits, logits_type in *. simpl in *.
  eexists. split.
  - rewrite Validate_checked by (try done; rewrite Hout; try lia;
      replace (2 + 4 * L - 2) with (L * 4) by lia; apply Z.mod_mul; lia).
    do 7 (case_bool_decide; [congruence|]).
    rewrite Hget. simpl.
    do 3 (case_bool_decide; [congruence|]).
    replace (bool_decide (elem_type o0 ≠ TensorProto_DataType_FLOAT)
             && bool_decide (elem_type o0 ≠ TensorProto_DataType_FLOAT16))
      with false.
    2: { symmetry. apply andb_false_iff.
         destruct Hfloat as [Hf|Hf]; [left|right];
           apply bool_decide_eq_false_2; intros ?; congruence. }
    reflexivity.
  - rewrite Hout. replace (2 + 4 * L - 2) with (L * 4) by lia.
    rewrite Z.div_mul by lia.
    split; [|split; [done|]].
    + f_equal. apply bool_decide_ext. split; congruence.
    + simpl. rewrite bool_decide_eq_true. split; congruence.
Qed.

(** What [Validate] does to a signature that passes the count and name
    checks and whose shapes resolve, but breaks an element-type rule. *)
Lemma Validate_type_failure s ins outs s1 :
  well_formed s ins outs → size ins = 3 → 6 ≤ size outs →
  (size outs - 2) `mod` 4 = 0 →
  Forall (named_as ins outs) contract_names →
  GetParameters (past_shape_of outs) (logits_shape_of outs) false s = (OK, s1) →
  ¬ (int32_inputs ins ∧ floating_logits outs) →
  ∃ kind i,
    Validate GetParameters ins outs s =
      Failed (UnsupportedDataType kind i)
             (set_num_layers ((size outs - 2) `div` 4) s1) ∧
    match kind with
    | Input => ∃ a, ins !! i = Some a ∧ elem_type a ≠ TensorProto_DataType_INT32
    | Output => i = 0%nat ∧ ¬ floating_logits outs
    end.
Proof.
  intros Hwf H3 H6 Hdiv Hnames Hget Hbad.
  destruct (well_formed_counted s ins outs Hwf H3 H6)
    as (i0 & i1 & i2 & o0 & o1 & o2 & o3 & rest & -> & -> & Hi & Ho & Hmax).
  apply named_as_contract_inv in Hnames as (N0 & N1 & N2 & N3 & N4 & N5 & N6).
  unfold past_shape_of, logits_shape_of in Hget. simpl in Hget.
  rewrite Validate_checked by done.
  do 7 (case_bool_decide; [congruence|]).
  rewrite Hget. simpl.
  case_bool_decide as T0; [exists Input, 0%nat; split; [done|by exists i0]|].
  case_bool_decide as T1; [exists Input, 1%nat; split; [done|by exists i1]|].
  case_bool_decide as T2; [exists Input, 2%nat; split; [done|by exists i2]|].
  assert (Hnf : ¬ floating_logits (o0 :: o1 :: o2 :: o3 :: rest)).
  { intros Hf. apply Hbad. split; [|done].
    unfold int32_inputs. by repeat constructor. }
  exists Output, 0%nat. split; [|done].
  assert (F : elem_type o0 ≠ TensorProto_DataType_FLOAT).
  { intros Hf. apply Hnf. left. unfold logits_type. simpl. by rewrite Hf. }
  assert (F16 : elem_type o0 ≠ TensorProto_DataType_FLOAT16).
  { intros Hf. apply Hnf. right. unfold logits_type. simpl. by rewrite Hf. }
  by rewrite !bool_decide_eq_true_2 by done.
Qed.

(** A signature [Validate] accepts meets the count, name and element-type
    requirements of the contract table. *)
Lemma Validate_accepted_inv s ins outs s' :
  well_formed s ins outs →
  Validate GetParameters ins outs s = Returned tt s' →
  size ins = 3 ∧ 6 ≤ size outs ∧ (size outs - 2) `mod` 4 = 0 ∧
  Forall (named_as ins outs) contract_names ∧
  int32_inputs ins ∧ floating_logits outs.
Proof.
  intros Hwf Hrun. pose proof Hwf as (Hin & Hout & Hmax).
  destruct (decide (size ins = 3)) as [H3|H3].
  2: { rewrite Validate_wrong_input_count in Hrun by congruence. done. }
  destruct (decide (size outs < 6 ∨ (size outs - 2) `mod` 4 ≠ 0)) as [Hbad|Hgood].
  { rewrite Validate_wrong_output_count in Hrun by (done || congruence). done. }
  assert (6 ≤ size outs ∧ (size outs - 2) `mod` 4 = 0) as [H6 Hdiv].
  { split; [lia|]. destruct (decide ((size outs - 2) `mod` 4 = 0)); [done|].
    exfalso. apply Hgood. by right. }
  do 3 (split; [done|]).
  destruct (well_formed_counted s ins outs Hwf H3 H6)
    as (i0 & i1 & i2 & o0 & o1 & o2 & o3 & rest & -> & -> & Hi & Ho & _).
  rewrite Validate_checked in Hrun by done.
  rewrite named_as_contract_inv.
  do 7 (case_bool_decide; [done|]).
  destruct (GetParameters _ _ _ _) as [[|e] s1]; [|done].
  simpl in Hrun.
  do 3 (case_bool_decide; [done|]).
  split; [done|]. split; [unfold int32_inputs; by repeat constructor|].
  unfold floating_logits, logits_type. simpl.
  destruct (decide (elem_type o0 = TensorProto_DataType_FLOAT)) as [->|F]; [by left|].
  destruct (decide (elem_type o0 = TensorProto_DataType_FLOAT16)) as [->|F16]; [by right|].
  rewrite !bool_decide_eq_true_2 in Hrun by done. done.
Qed.

(** C3 (amended).  Among signatures with exactly three inputs, every one
    whose output count is below 6, or whose output count minus 2 is not a
    multiple of 4, fails with [WrongOutputCount]; and no signature with such
    an output count is accepted, whatever its inputs. *)
Theorem Validate_rejects_output_count s ins outs :
  well_formed s ins outs →
  size outs < 6 ∨ (size outs - 2) `mod` 4 ≠ 0 →
  (size ins = 3 →
   Validate GetParameters ins outs s = Failed (WrongOutputCount (size outs)) s) ∧
  (∀ s', Validate GetParameters ins outs s ≠ Returned tt s').
Proof.
  intros Hwf Hbad. split.
  - destruct Hwf as (Hin & Hout & Hmax). intros H3.
    apply Validate_wrong_output_count; congruence.
  - intros s' Hrun.
    destruct (Validate_accepted_inv s ins outs s' Hwf Hrun) as (_ & H6 & Hdiv & _).
    destruct Hbad; [lia|done].
Qed.

(** C5 (amended).  A signature that passes the count checks, the name checks
    and the shape-derived parameter extraction, but has an input that is not
    int32 or a first output that is neither float nor float16, fails with
    [UnsupportedDataType] at a position that breaks the rule; and no
    signature that breaks an element-type rule is accepted. *)
Theorem Validate_rejects_element_types s ins outs :
  well_formed s ins outs →
  ¬ (int32_inputs ins ∧ floating_logits outs) →
  (∀ s1,
     size ins = 3 → 6 ≤ size outs → (size outs - 2) `mod` 4 = 0 →
     Forall (named_as ins outs) contract_names →
     GetParameters (past_shape_of outs) (logits_shape_of outs) false s = (OK, s1) →
     ∃ kind i s',
       Validate GetParameters ins outs s = Failed (UnsupportedDataType kind i) s' ∧
       match kind with
       | Input => ∃ a, ins !! i = Some a ∧ elem_type a ≠ TensorProto_DataType_INT32
       | Output => i = 0%nat ∧ ¬ floating_logits outs
       end) ∧
  (∀ s', Validate GetParameters ins outs s ≠ Returned tt s').
Proof.
  intros Hwf Hbad. split.
  - intros s1 H3 H6 Hdiv Hnames Hget.
    destruct (Validate_type_failure s ins outs s1) as (kind & i & Hrun & Hpos); try done.
    by exists kind, i, (set_num_layers ((size outs - 2) `div` 4) s1).
  - intros s' Hrun. apply Hbad.
    by destruct (Validate_accepted_inv s ins outs s' Hwf Hrun) as (_ & _ & _ & _ & ? & ?).
Qed.

(** C10.  [Validate] is not atomic on failure: when a signature passes the
    count, name and shape-extraction checks but fails an element-type check,
    the error is returned with the parameters that [GetParameters] stored
    and with [num_layers] already set. *)
Theorem Validate_not_atomic s ins outs s1 :
  well_formed s ins outs → size ins = 3 → 6 ≤ size outs →
  (size outs - 2) `mod` 4 = 0 →
  Forall (named_as ins outs) contract_names →
  GetParameters (past_shape_of outs) (logits_shape_of outs) false s = (OK, s1) →
  ¬ (int32_inputs ins ∧ floating_logits outs) →
  ∃ kind i s',
    Validate GetParameters ins outs s = Failed (UnsupportedDataType kind i) s' ∧
    s' = set_num_layers ((size outs - 2) `div` 4) s1 ∧
    num_layers s' = (size outs - 2) `div` 4 ∧
    num_heads s' = num_heads s1 ∧ head_size s' = head_size s1 ∧
    hidden_size s' = hidden_size s1 ∧
    is_output_float16_ s' = is_output_float16_ s1.
Proof.
  intros Hwf H3 H6 Hdiv Hnames Hget Hbad.
  destruct (Validate_type_failure s ins outs s1) as (kind & i & Hrun & _); try done.
  exists kind, i, (set_num_layers ((size outs - 2) `div` 4) s1).
  by repeat split.
Qed.

(** Cite entry [k] of the contract table as the first one that is not met. *)
Ltac cite k :=
  eexists (take k contract_names), _, _, _, _, (drop (S k) contract_names);
  split; [reflexivity|];
  split; [simpl; repeat constructor; unfold named_as; simpl; congruence|];
  split; [reflexivity|]; split; [congruence|];
  match goal with H : Validate _ _ _ _ = _ |- _ => rewrite H end;
  repeat (case_bool_decide; try congruence).

(** C4 (amended).  Among signatures that pass the count checks (three
    inputs; at least 6 outputs, 2 plus a multiple of 4), every one in which
    a fixed-position descriptor does not bear its contract name fails with
    [NameMismatch], citing the first such position in the order inputs 0, 1,
    2, outputs 0, 1, 2, 3, with the expected and the actual name; and
    renaming any one fixed-position descriptor of a signature that bears the
    contract names makes [Validate] fail citing that position. *)
Theorem Validate_rejects_names s ins outs :
  well_formed s ins outs → size ins = 3 → 6 ≤ size outs →
  (size outs - 2) `mod` 4 = 0 →
  (¬ Forall (named_as ins outs) contract_names →
   ∃ before kind i expected actual after,
     contract_names = before ++ (kind, i, expected) :: after ∧
     Forall (named_as ins outs) before ∧
     Name <$> args_of kind ins outs !! i = Some actual ∧
     actual ≠ expected ∧
     Validate GetParameters ins outs s =
       Failed (NameMismatch kind i expected actual) s) ∧
  (Forall (named_as ins outs) contract_names →
   ∀ kind i expected new,
     (kind, i, expected) ∈ contract_names → new ≠ expected →
     Validate GetParameters
       (rename kind i new (ins, outs)).1 (rename kind i new (ins, outs)).2 s =
       Failed (NameMismatch kind i expected new) s).
Proof.
  intros Hwf H3 H6 Hdiv.
  destruct (well_formed_counted s ins outs Hwf H3 H6)
    as (i0 & i1 & i2 & o0 & o1 & o2 & o3 & rest & -> & -> & Hi & Ho & Hmax).
  pose proof (Validate_checked s i0 i1 i2 o0 o1 o2 o3 rest Hi Ho Hmax H6 Hdiv) as Hrun.
  simpl in Hrun. split.
  - intros Hnames. rewrite named_as_contract_inv in Hnames.
    destruct (decide (Name i0 = "encoder_input_ids")) as [N0|N0]; [|cite 0%nat].
    destruct (decide (Name i1 = "encoder_attention_mask")) as [N1|N1]; [|cite 1%nat].
    destruct (decide (Name i2 = "decoder_input_ids")) as [N2|N2]; [|cite 2%nat].
    destruct (decide (Name o0 = "logits")) as [N3|N3]; [|cite 3%nat].
    destruct (decide (Name o1 = "encoder_hidden_states")) as [N4|N4]; [|cite 4%nat].
    destruct (decide (Name o2 = "present_key_self_0")) as [N5|N5]; [|cite 5%nat].
    destruct (decide (Name o3 = "present_value_self_0")) as [N6|N6]; [|cite 6%nat].
    by destruct Hnames.
  - intros Hnames kind i expected new Hentry Hnew. clear Hrun.
    apply named_as_contract_inv in Hnames as (N0 & N1 & N2 & N3 & N4 & N5 & N6).
    unfold contract_names in Hentry.
    repeat (apply elem_of_cons in Hentry as [Hentry|Hentry];
            [injection Hentry as -> -> ->|]);
      [..|by apply elem_of_nil in Hentry];
      simpl; rewrite Validate_checked by done; simpl;
      repeat (case_bool_decide; try congruence).
Qed.

(** C9.  Provided the parameter extraction only stores model parameters,
    [Validate] changes nothing of the object but its model parameters
    ([num_layers], [num_heads], [head_size], [hidden_size],
    [is_output_float16_]), whether it succeeds or fails; and on a well-formed
    signature it always comes back with a status. *)
Theorem Validate_frame s ins outs :
  (∀ past logits merged s0,
     outside_parameters (GetParameters past logits merged s0).2 =
     outside_parameters s0) →
  (∀ s', final_state (Validate GetParameters ins outs s) = Some s' →
         outside_parameters s' = outside_parameters s) ∧
  (well_formed s ins outs →
   is_Some (final_state (Validate GetParameters ins outs s))).
Proof.
  intros Hframe. split; [|apply Validate_defined].
  intros s'.
  unfold Validate, check_name, check_int32, vec_at, int_sub, call, get, modify,
    ORT_RETURN_IF, ORT_RETURN_IF_ERROR, undefined, mbind, M_bind, mret, M_ret.
  repeat first
    [ match goal with
      | |- context [bool_decide ?P] => destruct (bool_decide P)
      | |- context [?l !! ?i] => destruct (l !! i)
      end; simpl; try by intros [= <-] ].
  all: try done.
  all: match goal with
       | |- context [GetParameters ?p ?l ?m ?s0] =>
           pose proof (Hframe p l m s0) as Hs1;
           destruct (GetParameters p l m s0) as [[|e] s1]
       end; simpl in *.
  all: repeat first
    [ match goal with
      | |- context [bool_decide ?P] => destruct (bool_decide P)
      | |- context [?l !! ?i] => destruct (l !! i)
      end; simpl; try by intros [= <-] ].
  all: try done.
  all: intros [= <-]; exact Hs1.
Qed.

End ValidateProperties.

(** ** Properties of CreateInitialFeeds *)

(** The loop over [implicit_inputs] appends them in order. *)
Lemma foldl_push_back {A} (l k : list A) : foldl push_back l k = l ++ k.
Proof.
  revert l. induction k as [|x k IH]; intros l; simpl.
  - by rewrite app_nil_r.
  - rewrite IH. unfold push_back. by rewrite <- app_assoc.
Qed.

(** The three ways a call goes once [Setup] has bound the session state. *)
Lemma CreateInitialFeeds_run this session_state encoder_input_ids implicit_inputs
    num_beams pad_token_id start_token_id create_encoder_inputs_func
    add_to_feeds_func st :
  session_state_ this = Some session_state →
  let created :=
    create_encoder_inputs_func encoder_input_ids num_beams pad_token_id
      start_token_id (sequence_lengths st)
      (GetAllocator session_state (Location encoder_input_ids)) in
  let added :=
    add_to_feeds_func (GetProvider session_state)
      (expanded_encoder_input_ids created) (expanded_encoder_attention_mask created)
      (expanded_decoder_input_ids created) (feeds st) (buffer st) in
  CreateInitialFeeds this encoder_input_ids implicit_inputs num_beams pad_token_id
    start_token_id create_encoder_inputs_func add_to_feeds_func st =
  match encoder_inputs_status created with
  | NotOK e => Failed e (set_sequence_lengths (sequence_lengths_written created) st)
  | OK =>
      match add_to_feeds_status added with
      | NotOK e =>
          Failed e {| sequence_lengths := sequence_lengths_written created;
                      feeds := feeds_written added;
                      buffer := buffer_written added |}
      | OK =>
          Returned tt {| sequence_lengths := sequence_lengths_written created;
                         feeds := feeds_written added ++ implicit_inputs;
                         buffer := buffer_written added |}
      end
  end.
Proof.
  intros Hsetup created added.
  unfold CreateInitialFeeds, ORT_ENFORCE, mbind, M_bind. rewrite Hsetup.
  unfold get, modify, ORT_RETURN_IF_ERROR. simpl. fold created.
  destruct (encoder_inputs_status created); [|done].
  simpl. fold added.
  destruct (add_to_feeds_status added); [|done].
  unfold mret, M_ret, set_feeds. simpl. by rewrite foldl_push_back.
Qed.

(** C6.  A call made before [Setup] has bound the session state fails with
    [NotInitializedError], whatever the other arguments and hooks are, and
    leaves the feed vector (and the rest of the caller's objects) untouched. *)
Theorem CreateInitialFeeds_before_Setup this encoder_input_ids implicit_inputs
    num_beams pad_token_id start_token_id create_encoder_inputs_func
    add_to_feeds_func st :
  session_state_ this = None →
  CreateInitialFeeds this encoder_input_ids implicit_inputs num_beams pad_token_id
    start_token_id create_encoder_inputs_func add_to_feeds_func st =
  Failed NotInitializedError st.
Proof.
  intros Hnull. unfold CreateInitialFeeds, ORT_ENFORCE, mbind, M_bind.
  by rewrite Hnull.
Qed.

(** C7.  An error returned by the Encoder-Input Expansion hook, or by the Feed
    Assembly hook, is the result of [CreateInitialFeeds] unchanged, and the
    feed vector is then left as it was (first hook) or as the Feed Assembly
    hook left it (second hook): no implicit input is appended. *)
Theorem CreateInitialFeeds_propagates_hook_errors this session_state
    encoder_input_ids implicit_inputs num_beams pad_token_id start_token_id
    create_encoder_inputs_func add_to_feeds_func st :
  session_state_ this = Some session_state →
  let created :=
    create_encoder_inputs_func encoder_input_ids num_beams pad_token_id
      start_token_id (sequence_lengths st)
      (GetAllocator session_state (Location encoder_input_ids)) in
  let added :=
    add_to_feeds_func (GetProvider session_state)
      (expanded_encoder_input_ids created) (expanded_encoder_attention_mask created)
      (expanded_decoder_input_ids created) (feeds st) (buffer st) in
  let run :=
    CreateInitialFeeds this encoder_input_ids implicit_inputs num_beams pad_token_id
      start_token_id create_encoder_inputs_func add_to_feeds_func st in
  (∀ e, encoder_inputs_status created = NotOK e →
        ∃ st', run = Failed e st' ∧ feeds st' = feeds st) ∧
  (∀ e, encoder_inputs_status created = OK → add_to_feeds_status added = NotOK e →
        ∃ st', run = Failed e st' ∧ feeds st' = feeds_written added).
Proof.
  intros Hsetup created added run. unfold run.
  rewrite (CreateInitialFeeds_run _ _ _ _ _ _ _ _ _ _ Hsetup).
  fold created. fold added. split.
  - intros e ->. by eexists.
  - intros e -> ->. by eexists.
Qed.

(** C2.  After every call that succeeds, with a Feed Assembly hook that meets
    its contract, the feed vector holds the three expanded tensors in contract
    order at positions 0, 1, 2, followed by the implicit inputs in their
    order, unmodified: 3 + len(implicit_inputs) entries. *)
Theorem CreateInitialFeeds_feed_list this encoder_input_ids implicit_inputs
    num_beams pad_token_id start_token_id create_encoder_inputs_func
    add_to_feeds_func st st' :
  CreateInitialFeeds this encoder_input_ids implicit_inputs num_beams pad_token_id
    start_token_id create_encoder_inputs_func add_to_feeds_func st = Returned tt st' →
  places_explicit_feeds add_to_feeds_func (feeds st) →
  ∃ session_state,
    session_state_ this = Some session_state ∧
    let created :=
      create_encoder_inputs_func encoder_input_ids num_beams pad_token_id
        start_token_id (sequence_lengths st)
        (GetAllocator session_state (Location encoder_input_ids)) in
    feeds st' =
      [expanded_encoder_input_ids created; expanded_encoder_attention_mask created;
       expanded_decoder_input_ids created] ++ implicit_inputs ∧
    length (feeds st') = (3 + length implicit_inputs)%nat ∧
    ∀ i, feeds st' !! (3 + i)%nat = implicit_inputs !! i.
Proof.
  intros Hrun Hhook.
  destruct (session_state_ this) as [session_state|] eqn:Hsetup.
  2: { unfold CreateInitialFeeds, ORT_ENFORCE, mbind, M_bind in Hrun.
       by rewrite Hsetup in Hrun. }
  exists session_state. split; [done|]. intros created.
  rewrite (CreateInitialFeeds_run _ _ _ _ _ _ _ _ _ _ Hsetup) in Hrun.
  fold created in Hrun.
  destruct (encoder_inputs_status created); [|done].
  destruct (add_to_feeds_status _) eqn:Hadded; [|done].
  apply Hhook in Hadded. rewrite Hadded in Hrun.
  injection Hrun as <-. simpl. repeat split.
Qed.

Lemma length_batch_rows b w d : length (batch_rows b w d) = b.
Proof. revert d. induction b as [|b IH]; intros d; simpl; [done|]. by rewrite IH. Qed.

Lemma length_expand {A} num_beams (l : list A) :
  length (expand num_beams l) = (length l * Z.to_nat num_beams)%nat.
Proof.
  unfold expand. induction l as [|x l IH]; [done|].
  rewrite bind_cons, length_app, length_replicate, IH. simpl. lia.
Qed.

(** Batch-major, beam-minor: beam [k] of row [b] sits at [b * num_beams + k]. *)
Lemma lookup_expand {A} num_beams (l : list A) b k x :
  l !! b = Some x → (k < Z.to_nat num_beams)%nat →
  expand num_beams l !! (b * Z.to_nat num_beams + k)%nat = Some x.
Proof.
  unfold expand. revert b. induction l as [|y l IH]; intros b Hb Hk; [done|].
  rewrite bind_cons. destruct b as [|b]; simpl in Hb.
  - injection Hb as ->. rewrite lookup_app_l by (rewrite length_replicate; lia).
    apply lookup_replicate_2. lia.
  - rewrite lookup_app_r by (rewrite length_replicate; lia).
    rewrite length_replicate.
    replace (S b * Z.to_nat num_beams + k - Z.to_nat num_beams)%nat
      with (b * Z.to_nat num_beams + k)%nat by lia.
    by apply IH.
Qed.

(** C8 (amended).  [CreateInitialFeeds] does not allocate the sequence-length
    buffer: it hands the caller's span to the Encoder-Input Expansion hook,
    and with the hook as specified the span keeps the length the caller gave
    it.  When that length is batch_size × num_beams, a successful call leaves
    every entry initialized, and all beams of a batch row hold the same
    sequence length, the length of that row. *)
Theorem CreateInitialFeeds_sequence_lengths this encoder_input_ids implicit_inputs
    num_beams pad_token_id start_token_id add_to_feeds_func st st' :
  CreateInitialFeeds this encoder_input_ids implicit_inputs num_beams pad_token_id
    start_token_id CreateEncoderInputs add_to_feeds_func st = Returned tt st' →
  length (sequence_lengths st') = length (sequence_lengths st) ∧
  (length (sequence_lengths st) =
     (batch_size encoder_input_ids * Z.to_nat num_beams)%nat →
   ∀ b k,
     (b < batch_size encoder_input_ids)%nat → (k < Z.to_nat num_beams)%nat →
     ∃ row,
       batch_rows (batch_size encoder_input_ids) (sequence_length encoder_input_ids)
         (data encoder_input_ids) !! b = Some row ∧
       sequence_lengths st' !! (b * Z.to_nat num_beams + k)%nat =
         Some (row_length pad_token_id row)).
Proof.
  intros Hrun.
  destruct (session_state_ this) as [session_state|] eqn:Hsetup.
  2: { unfold CreateInitialFeeds, ORT_ENFORCE, mbind, M_bind in Hrun.
       by rewrite Hsetup in Hrun. }
  rewrite (CreateInitialFeeds_run _ _ _ _ _ _ _ _ _ _ Hsetup) in Hrun.
  simpl in Hrun. destruct (add_to_feeds_status _); [|done].
  injection Hrun as <-. simpl.
  set (rows := batch_rows _ _ _).
  split; [apply length_inserts|].
  intros Hlen b k Hb Hk.
  destruct (lookup_lt_is_Some_2 rows b) as [row Hrow].
  { unfold rows. by rewrite length_batch_rows. }
  exists row. split; [done|].
  assert (b * Z.to_nat num_beams + k < length (sequence_lengths st))%nat by nia.
  rewrite list_lookup_inserts.
  - rewrite Nat.sub_0_r. apply lookup_expand; [|done].
    by rewrite list_lookup_fmap, Hrow.
  - rewrite length_expand, length_fmap. unfold rows.
    rewrite length_batch_rows. lia.
  - done.
Qed.

(** ** The theorems at work on the one-layer signature *)

(** The parameter extraction as specified stores model parameters only. *)
Lemma GetParameters_spec_frame past logits merged s0 :
  outside_parameters (GetParameters_spec past logits merged s0).2 =
  outside_parameters s0.
Proof.
  unfold GetParameters_spec.
  repeat first
    [ done
    | match goal with
      | |- context [match ?x with _ => _ end] => destruct x
      end ].
Qed.

Lemma well_formed_t5 : well_formed (constructed 3 6) t5_inputs t5_outputs.
Proof. by repeat split. Qed.

Lemma t5_named_as_contract : Forall (named_as t5_inputs t5_outputs) contract_names.
Proof. by repeat constructor. Qed.

(** The one-layer signature is accepted, with one layer and float16 logits. *)
Lemma Validate_accepts_layer_count_witness :
  ∃ s',
    Validate GetParameters_spec t5_inputs t5_outputs (constructed 3 6) = Returned tt s' ∧
    s' = set_is_output_float16_
           (bool_decide (logits_type t5_outputs = Some TensorProto_DataType_FLOAT16))
           (set_num_layers 1
              (GetParameters_spec (past_shape_of t5_outputs) (logits_shape_of t5_outputs)
                 false (constructed 3 6)).2) ∧
    num_layers s' = 1 ∧
    (is_output_float16_ s' = true ↔
     logits_type t5_outputs = Some TensorProto_DataType_FLOAT16).
Proof.
  apply (Validate_accepts_layer_count GetParameters_spec 1 (constructed 3 6)
           t5_inputs t5_outputs).
  - lia.
  - exact well_formed_t5.
  - reflexivity.
  - reflexivity.
  - exact t5_named_as_contract.
  - by repeat constructor.
  - by right.
  - reflexivity.
Defined.

(** Two inputs and five outputs: the input count is what [Validate] reports. *)
Lemma Validate_output_count_counterexample :
  well_formed (constructed 2 5) (take 2 t5_inputs) (take 5 t5_outputs) ∧
  size (take 5 t5_outputs) < 6 ∧
  Validate GetParameters_spec (take 2 t5_inputs) (take 5 t5_outputs) (constructed 2 5) =
    Failed (WrongInputCount 2) (constructed 2 5) ∧
  ¬ ∃ got s',
      Validate GetParameters_spec (take 2 t5_inputs) (take 5 t5_outputs)
        (constructed 2 5) = Failed (WrongOutputCount got) s'.
Proof.
  split; [by repeat split|]. split; [done|]. split; [reflexivity|].
  intros (got & s' & Hrun). vm_compute in Hrun. discriminate.
Qed.

(** Three inputs and five outputs. *)
Lemma Validate_rejects_output_count_witness :
  Validate GetParameters_spec t5_inputs (take 5 t5_outputs) (constructed 3 5) =
    Failed (WrongOutputCount 5) (constructed 3 5).
Proof.
  apply (proj1 (Validate_rejects_output_count GetParameters_spec (constructed 3 5)
                  t5_inputs (take 5 t5_outputs)
                  ltac:(by repeat split) ltac:(by left))).
  reflexivity.
Defined.

(** A misnamed first input among five outputs: the output count is what
    [Validate] reports. *)
Lemma Validate_names_counterexample :
  well_formed (constructed 3 5) (int64_input_ids :: drop 1 t5_inputs) (take 5 t5_outputs) ∧
  Name int64_input_ids ≠ "encoder_input_ids" ∧
  Validate GetParameters_spec (int64_input_ids :: drop 1 t5_inputs) (take 5 t5_outputs)
    (constructed 3 5) = Failed (WrongOutputCount 5) (constructed 3 5) ∧
  ¬ ∃ kind i expected actual s',
      Validate GetParameters_spec (int64_input_ids :: drop 1 t5_inputs)
        (take 5 t5_outputs) (constructed 3 5) =
        Failed (NameMismatch kind i expected actual) s'.
Proof.
  split; [by repeat split|]. split; [done|]. split; [reflexivity|].
  intros (kind & i & expected & actual & s' & Hrun). vm_compute in Hrun. discriminate.
Qed.

(** Output 2 renamed. *)
Lemma Validate_rejects_names_witness :
  Validate GetParameters_spec
    (rename Output 2 "present_0" (t5_inputs, t5_outputs)).1
    (rename Output 2 "present_0" (t5_inputs, t5_outputs)).2 (constructed 3 6) =
  Failed (NameMismatch Output 2 "present_key_self_0" "present_0") (constructed 3 6).
Proof.
  apply (proj2 (Validate_rejects_names GetParameters_spec (constructed 3 6)
                  t5_inputs t5_outputs well_formed_t5 eq_refl
                  ltac:(done) eq_refl) t5_named_as_contract).
  - by apply (list_elem_of_lookup_2 _ 5%nat).
  - discriminate.
Defined.

(** A first input that is both misnamed and int64: the name is what [Validate]
    reports. *)
Lemma Validate_element_types_counterexample :
  well_formed (constructed 3 6) (int64_input_ids :: drop 1 t5_inputs) t5_outputs ∧
  elem_type int64_input_ids ≠ TensorProto_DataType_INT32 ∧
  Validate GetParameters_spec (int64_input_ids :: drop 1 t5_inputs) t5_outputs
    (constructed 3 6) =
    Failed (NameMismatch Input 0 "encoder_input_ids" "input_ids") (constructed 3 6) ∧
  ¬ ∃ kind i s',
      Validate GetParameters_spec (int64_input_ids :: drop 1 t5_inputs) t5_outputs
        (constructed 3 6) = Failed (UnsupportedDataType kind i) s'.
Proof.
  split; [by repeat split|]. split; [done|]. split; [reflexivity|].
  intros (kind & i & s' & Hrun). vm_compute in Hrun. discriminate.
Qed.

(** The push_back hook meets the Feed Assembly contract on an empty vector. *)
Lemma AddToFeeds_places_explicit_feeds : places_explicit_feeds AddToFeeds [].
Proof. intros provider a b c buffer _. reflexivity. Qed.

Lemma mistyped_breaks_rule : ¬ (int32_inputs mistyped_inputs ∧ floating_logits t5_outputs).
Proof.
  intros [Hint _]. unfold int32_inputs in Hint.
  pose proof (Forall_lookup_1 _ _ 1%nat _ Hint eq_refl) as Hmask. discriminate.
Qed.

(** An int64 attention mask in a signature that is right otherwise. *)
Lemma Validate_rejects_element_types_witness :
  ∃ kind i s',
    Validate GetParameters_spec mistyped_inputs t5_outputs (constructed 3 6) =
      Failed (UnsupportedDataType kind i) s' ∧
    match kind with
    | Input => ∃ a, mistyped_inputs !! i = Some a ∧
                    elem_type a ≠ TensorProto_DataType_INT32
    | Output => i = 0%nat ∧ ¬ floating_logits t5_outputs
    end.
Proof.
  apply (proj1 (Validate_rejects_element_types GetParameters_spec (constructed 3 6)
                  mistyped_inputs t5_outputs ltac:(by repeat split)
                  mistyped_breaks_rule)
           (GetParameters_spec (past_shape_of t5_outputs) (logits_shape_of t5_outputs)
              false (constructed 3 6)).2).
  - reflexivity.
  - done.
  - reflexivity.
  - by repeat constructor.
  - reflexivity.
Defined.

(** The frame of [Validate] with the parameter extraction as specified. *)
Lemma Validate_frame_witness :
  (∀ s', final_state (Validate GetParameters_spec t5_inputs t5_outputs (constructed 3 6))
         = Some s' →
         outside_parameters s' = outside_parameters (constructed 3 6)) ∧
  (well_formed (constructed 3 6) t5_inputs t5_outputs →
   is_Some (final_state
              (Validate GetParameters_spec t5_inputs t5_outputs (constructed 3 6)))).
Proof.
  apply (Validate_frame GetParameters_spec (constructed 3 6) t5_inputs t5_outputs).
  exact GetParameters_spec_frame.
Defined.

(** The int64 attention mask is reported after heads, head size, hidden size
    and layer count have been stored. *)
Lemma Validate_not_atomic_witness :
  ∃ kind i s',
    Validate GetParameters_spec mistyped_inputs t5_outputs (constructed 3 6) =
      Failed (UnsupportedDataType kind i) s' ∧
    s' = set_num_layers ((size t5_outputs - 2) `div` 4)
           (GetParameters_spec (past_shape_of t5_outputs) (logits_shape_of t5_outputs)
              false (constructed 3 6)).2 ∧
    num_layers s' = (size t5_outputs - 2) `div` 4 ∧
    num_heads s' = 8 ∧ head_size s' = 64 ∧ hidden_size s' = 512 ∧
    is_output_float16_ s' = false.
Proof.
  apply (Validate_not_atomic GetParameters_spec (constructed 3 6) mistyped_inputs
           t5_outputs).
  - by repeat split.
  - reflexivity.
  - done.
  - reflexivity.
  - by repeat constructor.
  - reflexivity.
  - exact mistyped_breaks_rule.
Defined.

(** Two rows, four beams, two implicit inputs: five feeds. *)
Lemma CreateInitialFeeds_feed_list_witness :
  ∃ session_state,
    session_state_ ready = Some session_state ∧
    let created :=
      CreateEncoderInputs two_rows 4 0 1 (sequence_lengths (request 8))
        (GetAllocator session_state (Location two_rows)) in
    let st' :=
      default (request 8)
        (final_state (CreateInitialFeeds ready two_rows two_implicit_inputs 4 0 1
                        CreateEncoderInputs AddToFeeds (request 8))) in
    feeds st' =
      [expanded_encoder_input_ids created; expanded_encoder_attention_mask created;
       expanded_decoder_input_ids created] ++ two_implicit_inputs ∧
    length (feeds st') = (3 + length two_implicit_inputs)%nat ∧
    ∀ i, feeds st' !! (3 + i)%nat = two_implicit_inputs !! i.
Proof.
  apply (CreateInitialFeeds_feed_list ready two_rows two_implicit_inputs 4 0 1
           CreateEncoderInputs AddToFeeds (request 8)).
  - reflexivity.
  - exact AddToFeeds_places_explicit_feeds.
Defined.

(** The object before [Setup]. *)
Lemma CreateInitialFeeds_before_Setup_witness :
  CreateInitialFeeds (constructed 3 6) two_rows two_implicit_inputs 4 0 1
    CreateEncoderInputs AddToFeeds (request 8) =
  Failed NotInitializedError (request 8).
Proof.
  apply (CreateInitialFeeds_before_Setup (constructed 3 6)). reflexivity.
Defined.

(** A Feed Assembly hook that reports a device mismatch. *)
Lemma CreateInitialFeeds_propagates_hook_errors_witness :
  ∃ st',
    CreateInitialFeeds ready two_rows two_implicit_inputs 4 0 1 CreateEncoderInputs
      (failing_AddToFeeds (HookError 1 "device mismatch")) (request 8) =
      Failed (HookError 1 "device mismatch") st' ∧
    feeds st' = [].
Proof.
  apply (proj2 (CreateInitialFeeds_propagates_hook_errors ready cpu_session two_rows
                  two_implicit_inputs 4 0 1 CreateEncoderInputs
                  (failing_AddToFeeds (HookError 1 "device mismatch")) (request 8)
                  eq_refl)).
  - reflexivity.
  - reflexivity.
Defined.

(** Two rows, four beams and a caller's span of ten entries: the span still has
    ten entries after a successful call, the last two as the caller left them. *)
Lemma CreateInitialFeeds_allocation_counterexample :
  ∃ st',
    CreateInitialFeeds ready two_rows two_implicit_inputs 4 0 1 CreateEncoderInputs
      AddToFeeds (request 10) = Returned tt st' ∧
    batch_size two_rows = 2%nat ∧
    length (sequence_lengths st') ≠ (batch_size two_rows * Z.to_nat 4)%nat ∧
    sequence_lengths st' = [2; 2; 2; 2; 1; 1; 1; 1; -1; -1].
Proof.
  eexists. split; [vm_compute; reflexivity|].
  split; [reflexivity|]. split; [discriminate|reflexivity].
Qed.

(** Two rows, four beams and a caller's span of eight entries. *)
Lemma CreateInitialFeeds_sequence_lengths_witness :
  let st' :=
    default (request 8)
      (final_state (CreateInitialFeeds ready two_rows two_implicit_inputs 4 0 1
                      CreateEncoderInputs AddToFeeds (request 8))) in
  length (sequence_lengths st') = length (sequence_lengths (request 8)) ∧
  (length (sequence_lengths (request 8)) = (batch_size two_rows * Z.to_nat 4)%nat →
   ∀ b k,
     (b < batch_size two_rows)%nat → (k < Z.to_nat 4)%nat →
     ∃ row,
       batch_rows (batch_size two_rows) (sequence_length two_rows) (data two_rows) !! b
         = Some row ∧
       sequence_lengths st' !! (b * Z.to_nat 4 + k)%nat = Some (row_length 0 row)).
Proof.
  apply (CreateInitialFeeds_sequence_lengths ready two_rows two_implicit_inputs 4 0 1
           AddToFeeds (request 8)).
  reflexivity.
Defined.

(** ** Further properties of Validate *)

(** X1.  The checks that precede the parameter extraction are atomic and do
    not depend on it: on a well-formed signature whose input count is not 3
    [Validate] reports the input count, whatever else is wrong; and whenever a
    count or a fixed-position name is wrong, [Validate] fails with the object
    exactly as it was, and with the same error for every parameter
    extraction. *)
Theorem Validate_early_failure s ins outs :
  well_formed s ins outs →
  (size ins ≠ 3 →
   ∀ GetParameters,
     Validate GetParameters ins outs s = Failed (WrongInputCount (size ins)) s) ∧
  (¬ (size ins = 3 ∧ 6 ≤ size outs ∧ (size outs - 2) `mod` 4 = 0 ∧
      Forall (named_as ins outs) contract_names) →
   ∃ e, ∀ GetParameters, Validate GetParameters ins outs s = Failed e s).
Proof.
  intros Hwf. pose proof Hwf as (Hin & Hout & Hmax). split.
  - intros H3 GetParameters. rewrite <- Hin.
    apply Validate_wrong_input_count. congruence.
  - intros Hbad.
    destruct (decide (size ins = 3)) as [H3|H3].
    2: { exists (WrongInputCount (num_subgraph_inputs s)). intros GetParameters.
         apply Validate_wrong_input_count. congruence. }
    destruct (decide (size outs < 6 ∨ (size outs - 2) `mod` 4 ≠ 0)) as [Hcount|Hcount].
    { exists (WrongOutputCount (size outs)). intros GetParameters.
      apply Validate_wrong_output_count; (done || congruence). }
    assert (6 ≤ size outs ∧ (size outs - 2) `mod` 4 = 0) as [H6 Hdiv].
    { split; [lia|]. destruct (decide ((size outs - 2) `mod` 4 = 0)); [done|].
      exfalso. apply Hcount. by right. }
    assert (Hnames : ¬ Forall (named_as ins outs) contract_names) by tauto.
    destruct (well_formed_counted s ins outs Hwf H3 H6)
      as (i0 & i1 & i2 & o0 & o1 & o2 & o3 & rest & -> & -> & Hi & Ho & _).
    rewrite named_as_contract_inv in Hnames.
    assert (Hrun : ∀ GetParameters, _) by
      (intros GetParameters;
       exact (Validate_checked GetParameters s i0 i1 i2 o0 o1 o2 o3 rest Hi Ho Hmax H6 Hdiv)).
    simpl in Hrun.
    destruct (decide (Name i0 = "encoder_input_ids")) as [N0|N0].
    2: { eexists. intros GetParameters. rewrite Hrun.
         by rewrite bool_decide_eq_true_2. }
    destruct (decide (Name i1 = "encoder_attention_mask")) as [N1|N1].
    2: { eexists. intros GetParameters. rewrite Hrun.
         rewrite bool_decide_eq_false_2 by (intros ?; done).
         by rewrite bool_decide_eq_true_2. }
    destruct (decide (Name i2 = "decoder_input_ids")) as [N2|N2].
    2: { eexists. intros GetParameters. rewrite Hrun.
         rewrite !bool_decide_eq_false_2 by (intros ?; done).
         by rewrite bool_decide_eq_true_2. }
    destruct (decide (Name o0 = "logits")) as [N3|N3].
    2: { eexists. intros GetParameters. rewrite Hrun.
         rewrite !bool_decide_eq_false_2 by (intros ?; done).
         by rewrite bool_decide_eq_true_2. }
    destruct (decide (Name o1 = "encoder_hidden_states")) as [N4|N4].
    2: { eexists. intros GetParameters. rewrite Hrun.
         rewrite !bool_decide_eq_false_2 by (intros ?; done).
         by rewrite bool_decide_eq_true_2. }
    destruct (decide (Name o2 = "present_key_self_0")) as [N5|N5].
    2: { eexists. intros GetParameters. rewrite Hrun.
         rewrite !bool_decide_eq_false_2 by (intros ?; done).
         by rewrite bool_decide_eq_true_2. }
    destruct (decide (Name o3 = "present_value_self_0")) as [N6|N6].
    2: { eexists. intros GetParameters. rewrite Hrun.
         rewrite !bool_decide_eq_false_2 by (intros ?; done).
         by rewrite bool_decide_eq_true_2. }
    by destruct Hnames.
Qed.

Section ValidateFurther.

Variable GetParameters :
  option TensorShapeProto → option TensorShapeProto → bool →
  Subgraph → Status * Subgraph.

(** X2.  A failure of the parameter extraction is what [Validate] returns,
    with the object as the extraction left it: the layer count is not
    assigned and the element types are not looked at, so a shape error takes
    precedence over any element-type error. *)
Theorem Validate_shape_failure s ins outs e s1 :
  well_formed s ins outs → size ins = 3 → 6 ≤ size outs →
  (size outs - 2) `mod` 4 = 0 →
  Forall (named_as ins outs) contract_names →
  GetParameters (past_shape_of outs) (logits_shape_of outs) false s = (NotOK e, s1) →
  Validate GetParameters ins outs s = Failed e s1.
Proof.
  intros Hwf H3 H6 Hdiv Hnames Hget.
  destruct (well_formed_counted s ins outs Hwf H3 H6)
    as (i0 & i1 & i2 & o0 & o1 & o2 & o3 & rest & -> & -> & Hi & Ho & Hmax).
  apply named_as_contract_inv in Hnames as (N0 & N1 & N2 & N3 & N4 & N5 & N6).
  unfold past_shape_of, logits_shape_of in Hget. simpl in Hget.
  rewrite Validate_checked by done.
  do 7 (case_bool_decide; [congruence|]).
  by rewrite Hget.
Qed.

(** X3.  What an accepted signature guarantees: exactly three inputs, named
    and typed as the contract table says; outputs named as it says, their
    count 2 + 4 × [num_layers] with at least one layer; a float or float16
    first output, float16 exactly when the flag is set; and a parameter
    extraction that succeeded, whose stored values the object carries. *)
Theorem Validate_accepted_sound s ins outs s' :
  well_formed s ins outs →
  Validate GetParameters ins outs s = Returned tt s' →
  size ins = 3 ∧
  size outs = 2 + 4 * num_layers s' ∧ 1 ≤ num_layers s' ∧
  Forall (named_as ins outs) contract_names ∧
  int32_inputs ins ∧ floating_logits outs ∧
  (is_output_float16_ s' = true ↔
   logits_type outs = Some TensorProto_DataType_FLOAT16) ∧
  ∃ s1,
    GetParameters (past_shape_of outs) (logits_shape_of outs) false s = (OK, s1) ∧
    num_heads s' = num_heads s1 ∧ head_size s' = head_size s1 ∧
    hidden_size s' = hidden_size s1.
Proof.
  intros Hwf Hrun.
  destruct (Validate_accepted_inv GetParameters s ins outs s' Hwf Hrun)
    as (H3 & H6 & Hdiv & Hnames & Hint & Hfloat).
  destruct (well_formed_counted s ins outs Hwf H3 H6)
    as (i0 & i1 & i2 & o0 & o1 & o2 & o3 & rest & -> & -> & Hi & Ho & Hmax).
  rewrite Validate_checked in Hrun by done.
  pose proof Hnames as (N0 & N1 & N2 & N3 & N4 & N5 & N6)%named_as_contract_inv.
  do 7 (case_bool_decide; [congruence|]).
  unfold past_shape_of, logits_shape_of. simpl.
  destruct (GetParameters _ _ _ _) as [[|e] s1]; [|done].
  simpl in Hrun. do 3 (case_bool_decide; [done|]).
  destruct (_ && _); [done|]. injection Hrun as <-. simpl.
  set (n := size (o0 :: o1 :: o2 :: o3 :: rest)) in *.
  assert (Hn : n - 2 = 4 * ((n - 2) `div` 4)).
  { rewrite (Z.div_mod (n - 2) 4) at 1 by lia. lia. }
  split; [done|]. split; [lia|]. split; [lia|].
  do 3 (split; [done|]). split.
  - unfold logits_type. simpl. rewrite bool_decide_eq_true. split; congruence.
  - by exists s1.
Qed.

(** X4.  Among several element-type errors [Validate] reports the first in
    the order input 0, 1, 2, output 0: a non-int32 input is cited when every
    input before it is int32, and output 0 only when all three inputs are
    int32. *)
Theorem Validate_first_type_error s ins outs s1 :
  well_formed s ins outs → size ins = 3 → 6 ≤ size outs →
  (size outs - 2) `mod` 4 = 0 →
  Forall (named_as ins outs) contract_names →
  GetParameters (past_shape_of outs) (logits_shape_of outs) false s = (OK, s1) →
  (∀ i a,
     ins !! i = Some a → elem_type a ≠ TensorProto_DataType_INT32 →
     int32_inputs (take i ins) →
     Validate GetParameters ins outs s =
       Failed (UnsupportedDataType Input i)
              (set_num_layers ((size outs - 2) `div` 4) s1)) ∧
  (int32_inputs ins → ¬ floating_logits outs →
   Validate GetParameters ins outs s =
     Failed (UnsupportedDataType Output 0)
            (set_num_layers ((size outs - 2) `div` 4) s1)).
Proof.
  intros Hwf H3 H6 Hdiv Hnames Hget.
  destruct (well_formed_counted s ins outs Hwf H3 H6)
    as (i0 & i1 & i2 & o0 & o1 & o2 & o3 & rest & -> & -> & Hi & Ho & Hmax).
  apply named_as_contract_inv in Hnames as (N0 & N1 & N2 & N3 & N4 & N5 & N6).
  unfold past_shape_of, logits_shape_of in Hget. simpl in Hget.
  rewrite Validate_checked by done.
  do 7 (case_bool_decide; [congruence|]).
  rewrite Hget. simpl. unfold int32_inputs. split.
  - intros i a Hi' Ha Hbefore.
    destruct i as [|[|[|i]]]; simpl in Hi'; [| | |done];
      injection Hi' as ->; simpl in Hbefore.
    + by rewrite bool_decide_eq_true_2.
    + apply Forall_cons_iff in Hbefore as [T0 _].
      rewrite bool_decide_eq_false_2 by (intros ?; done).
      by rewrite bool_decide_eq_true_2.
    + apply Forall_cons_iff in Hbefore as [T0 [T1 _]%Forall_cons_iff].
      rewrite !bool_decide_eq_false_2 by (intros ?; done).
      by rewrite bool_decide_eq_true_2.
  - intros Hint Hnf. rewrite !Forall_cons_iff in Hint.
    destruct Hint as (T0 & T1 & T2 & _).
    do 3 (case_bool_decide; [done|]).
    assert (F : elem_type o0 ≠ TensorProto_DataType_FLOAT).
    { intros Hf. apply Hnf. left. unfold logits_type. simpl. by rewrite Hf. }
    assert (F16 : elem_type o0 ≠ TensorProto_DataType_FLOAT16).
    { intros Hf. apply Hnf. right. unfold logits_type. simpl. by rewrite Hf. }
    by rewrite !bool_decide_eq_true_2 by done.
Qed.

(** X5.  What [Validate] looks at: of each of the first three inputs the name
    and the element type; of the outputs their number, the names of the first
    four, the element type and shape of output 0 and the shape of output 2.
    Two signatures that agree on these get the same verdict and leave the same
    object: input shapes, every output from position 4 on (the cross-attention
    and further-layer caches) and the element types of outputs 1 to 3 play no
    part. *)
Theorem Validate_inspects s ins ins' outs outs' :
  (λ a, (Name a, elem_type a)) <$> take 3 ins =
    (λ a, (Name a, elem_type a)) <$> take 3 ins' →
  length outs = length outs' →
  Name <$> take 4 outs = Name <$> take 4 outs' →
  (λ a, (elem_type a, Shape a)) <$> outs !! 0%nat =
    (λ a, (elem_type a, Shape a)) <$> outs' !! 0%nat →
  Shape <$> outs !! 2%nat = Shape <$> outs' !! 2%nat →
  Validate GetParameters ins outs s = Validate GetParameters ins' outs' s.
Proof.
  intros Hins Hlen Hnames Hlogits Hpast.
  assert (Hsize : size outs = size outs') by (unfold size; congruence).
  assert (Hin : Validate GetParameters ins outs s = Validate GetParameters ins' outs s).
  { clear -Hins.
    destruct ins as [|[n0 t0 h0] [|[n1 t1 h1] [|[n2 t2 h2] ins]]];
      destruct ins' as [|[n0' t0' h0'] [|[n1' t1' h1'] [|[n2' t2' h2'] ins']]];
      simpl in Hins; simplify_eq; reflexivity. }
  rewrite Hin. clear Hin Hins.
  unfold Validate. rewrite Hsize. clear Hsize Hlen.
  destruct outs as [|[m0 u0 k0] [|[m1 u1 k1] [|[m2 u2 k2] [|[m3 u3 k3] outs]]]];
    destruct outs' as [|[m0' u0' k0'] [|[m1' u1' k1'] [|[m2' u2' k2'] [|[m3' u3' k3'] outs']]]];
    simpl in Hnames, Hlogits, Hpast; simplify_eq; reflexivity.
Qed.

(** X6.  [Validate] checks the member [num_subgraph_inputs], not the size of
    the vector it is passed: when the object says three inputs but fewer are
    passed (named as required, as far as they go) and the output-count checks
    pass, it indexes the input vector out of range. *)
Theorem Validate_short_inputs_undefined s ins outs :
  num_subgraph_inputs s = 3 → 6 ≤ num_subgraph_outputs s →
  size outs ≤ INT_MAX → Z.rem (size outs - 2) 4 = 0 →
  (length ins < 3)%nat →
  Name <$> ins =
    take (length ins) ["encoder_input_ids"; "encoder_attention_mask"; "decoder_input_ids"] →
  Validate GetParameters ins outs s = Undefined.
Proof.
  intros Hin Hout Hmax Hrem Hshort Hnames.
  unfold Validate, mbind, M_bind, get, ORT_RETURN_IF.
  rewrite bool_decide_eq_false_2 by (intros ?; done).
  rewrite bool_decide_eq_false_2 by lia.
  rewrite static_cast_int_id by (unfold size in *; lia).
  rewrite int_sub_in_range by (unfold INT_MIN, INT_MAX, size in *; lia).
  rewrite bool_decide_eq_false_2 by (intros ?; done).
  destruct ins as [|[n0 t0 h0] [|[n1 t1 h1] [|i2 ins]]];
    simpl in Hshort, Hnames; [| | |lia]; simplify_eq; reflexivity.
Qed.

End ValidateFurther.

(** ** Further properties of CreateInitialFeeds *)

(** X7.  How a successful call composes its collaborators, whatever they are:
    [Setup] had bound a session state; the Encoder-Input Expansion hook was
    given the caller's span and the session's allocator for the location of
    [encoder_input_ids]; the Feed Assembly hook was given the session's
    provider, the three values the first hook produced, and the caller's feed
    vector and buffer.  The span is left as the first hook wrote it, the
    buffer as the second hook wrote it, and the feed vector is what the second
    hook wrote followed by the implicit inputs in order. *)
Theorem CreateInitialFeeds_success_inv this encoder_input_ids implicit_inputs
    num_beams pad_token_id start_token_id create_encoder_inputs_func
    add_to_feeds_func st st' :
  CreateInitialFeeds this encoder_input_ids implicit_inputs num_beams pad_token_id
    start_token_id create_encoder_inputs_func add_to_feeds_func st = Returned tt st' →
  ∃ session_state,
    session_state_ this = Some session_state ∧
    let created :=
      create_encoder_inputs_func encoder_input_ids num_beams pad_token_id
        start_token_id (sequence_lengths st)
        (GetAllocator session_state (Location encoder_input_ids)) in
    let added :=
      add_to_feeds_func (GetProvider session_state)
        (expanded_encoder_input_ids created) (expanded_encoder_attention_mask created)
        (expanded_decoder_input_ids created) (feeds st) (buffer st) in
    encoder_inputs_status created = OK ∧
    add_to_feeds_status added = OK ∧
    sequence_lengths st' = sequence_lengths_written created ∧
    feeds st' = feeds_written added ++ implicit_inputs ∧
    buffer st' = buffer_written added.
Proof.
  intros Hrun.
  destruct (session_state_ this) as [session_state|] eqn:Hsetup.
  2: { unfold CreateInitialFeeds, ORT_ENFORCE, mbind, M_bind in Hrun.
       by rewrite Hsetup in Hrun. }
  exists session_state. split; [done|]. intros created added.
  rewrite (CreateInitialFeeds_run _ _ _ _ _ _ _ _ _ _ Hsetup) in Hrun.
  fold created in Hrun. fold added in Hrun.
  destruct (encoder_inputs_status created); [|done].
  destruct (add_to_feeds_status added); [|done].
  by injection Hrun as <-.
Qed.

(** X8.  A hook failure is not rolled back.  When the Encoder-Input Expansion
    hook fails, the Feed Assembly hook plays no part (the outcome is the same
    for every such hook) and the caller's span holds what the failing hook
    wrote, feeds and buffer untouched.  When the Feed Assembly hook fails, the
    span holds what the first hook wrote and the feed vector and buffer hold
    what the failing hook wrote. *)
Theorem CreateInitialFeeds_hook_failure_state this session_state encoder_input_ids
    implicit_inputs num_beams pad_token_id start_token_id
    create_encoder_inputs_func st :
  session_state_ this = Some session_state →
  let created :=
    create_encoder_inputs_func encoder_input_ids num_beams pad_token_id
      start_token_id (sequence_lengths st)
      (GetAllocator session_state (Location encoder_input_ids)) in
  (∀ e, encoder_inputs_status created = NotOK e →
        ∀ add_to_feeds_func,
          CreateInitialFeeds this encoder_input_ids implicit_inputs num_beams
            pad_token_id start_token_id create_encoder_inputs_func
            add_to_feeds_func st =
          Failed e {| sequence_lengths := sequence_lengths_written created;
                      feeds := feeds st;
                      buffer := buffer st |}) ∧
  (∀ e add_to_feeds_func,
     let added :=
       add_to_feeds_func (GetProvider session_state)
         (expanded_encoder_input_ids created) (expanded_encoder_attention_mask created)
         (expanded_decoder_input_ids created) (feeds st) (buffer st) in
     encoder_inputs_status created = OK → add_to_feeds_status added = NotOK e →
     CreateInitialFeeds this encoder_input_ids implicit_inputs num_beams
       pad_token_id start_token_id create_encoder_inputs_func add_to_feeds_func st =
     Failed e {| sequence_lengths := sequence_lengths_written created;
                 feeds := feeds_written added;
                 buffer := buffer_written added |}).
Proof.
  intros Hsetup created. split.
  - intros e Hfail add_to_feeds_func.
    rewrite (CreateInitialFeeds_run _ _ _ _ _ _ _ _ _ _ Hsetup).
    fold created. by rewrite Hfail.
  - intros e add_to_feeds_func added Hok Hfail.
    rewrite (CreateInitialFeeds_run _ _ _ _ _ _ _ _ _ _ Hsetup).
    fold created. fold added. by rewrite Hok, Hfail.
Qed.

(** ** The further properties at work *)

(** Two inputs and five outputs: the input count is reported. *)
Lemma Validate_early_failure_witness :
  Validate GetParameters_spec (take 2 t5_inputs) (take 5 t5_outputs) (constructed 2 5) =
    Failed (WrongInputCount (size (take 2 t5_inputs))) (constructed 2 5).
Proof.
  apply (proj1 (Validate_early_failure (constructed 2 5) (take 2 t5_inputs)
                  (take 5 t5_outputs) ltac:(by repeat split))).
  discriminate.
Defined.

(** A symbolic head count: the shape error is what [Validate] returns. *)
Lemma Validate_shape_failure_witness :
  Validate GetParameters_spec t5_inputs unresolved_outputs (constructed 3 6) =
    Failed (ShapeInferenceError "cache shape is not resolvable") (constructed 3 6).
Proof.
  apply (Validate_shape_failure GetParameters_spec (constructed 3 6) t5_inputs
           unresolved_outputs).
  - by repeat split.
  - reflexivity.
  - done.
  - reflexivity.
  - by repeat constructor.
  - reflexivity.
Defined.

(** The one-layer signature, once accepted. *)
Lemma Validate_accepted_sound_witness :
  let s' :=
    default (constructed 3 6)
      (final_state (Validate GetParameters_spec t5_inputs t5_outputs (constructed 3 6))) in
  size t5_inputs = 3 ∧
  size t5_outputs = 2 + 4 * num_layers s' ∧ 1 ≤ num_layers s' ∧
  Forall (named_as t5_inputs t5_outputs) contract_names ∧
  int32_inputs t5_inputs ∧ floating_logits t5_outputs ∧
  (is_output_float16_ s' = true ↔
   logits_type t5_outputs = Some TensorProto_DataType_FLOAT16) ∧
  ∃ s1,
    GetParameters_spec (past_shape_of t5_outputs) (logits_shape_of t5_outputs) false
      (constructed 3 6) = (OK, s1) ∧
    num_heads s' = num_heads s1 ∧ head_size s' = head_size s1 ∧
    hidden_size s' = hidden_size s1.
Proof.
  apply (Validate_accepted_sound GetParameters_spec (constructed 3 6) t5_inputs
           t5_outputs).
  - exact well_formed_t5.
  - reflexivity.
Defined.

(** The int64 attention mask is cited at position 1. *)
Lemma Validate_first_type_error_witness :
  Validate GetParameters_spec mistyped_inputs t5_outputs (constructed 3 6) =
    Failed (UnsupportedDataType Input 1)
           (set_num_layers ((size t5_outputs - 2) `div` 4)
              (GetParameters_spec (past_shape_of t5_outputs) (logits_shape_of t5_outputs)
                 false (constructed 3 6)).2).
Proof.
  apply (proj1 (Validate_first_type_error GetParameters_spec (constructed 3 6)
                  mistyped_inputs t5_outputs _ ltac:(by repeat split) eq_refl
                  ltac:(done) eq_refl ltac:(by repeat constructor) eq_refl)
           1%nat _ eq_refl).
  - discriminate.
  - by repeat constructor.
Defined.

(** Other cross-attention outputs, same verdict. *)
Lemma Validate_inspects_witness :
  Validate GetParameters_spec t5_inputs t5_outputs (constructed 3 6) =
  Validate GetParameters_spec t5_inputs other_cross_outputs (constructed 3 6).
Proof.
  apply (Validate_inspects GetParameters_spec (constructed 3 6) t5_inputs t5_inputs
           t5_outputs other_cross_outputs); reflexivity.
Defined.

(** Two inputs passed to an object that counts three. *)
Lemma Validate_short_inputs_undefined_witness :
  Validate GetParameters_spec (take 2 t5_inputs) t5_outputs (constructed 3 6) = Undefined.
Proof.
  apply (Validate_short_inputs_undefined GetParameters_spec (constructed 3 6)
           (take 2 t5_inputs) t5_outputs).
  - reflexivity.
  - done.
  - done.
  - reflexivity.
  - simpl. lia.
  - reflexivity.
Defined.

(** Two rows, four beams, two implicit inputs. *)
Lemma CreateInitialFeeds_success_inv_witness :
  ∃ session_state,
    session_state_ ready = Some session_state ∧
    let st' :=
      default (request 8)
        (final_state (CreateInitialFeeds ready two_rows two_implicit_inputs 4 0 1
                        CreateEncoderInputs AddToFeeds (request 8))) in
    let created :=
      CreateEncoderInputs two_rows 4 0 1 (sequence_lengths (request 8))
        (GetAllocator session_state (Location two_rows)) in
    let added :=
      AddToFeeds (GetProvider session_state)
        (expanded_encoder_input_ids created) (expanded_encoder_attention_mask created)
        (expanded_decoder_input_ids created) (feeds (request 8)) (buffer (request 8)) in
    encoder_inputs_status created = OK ∧
    add_to_feeds_status added = OK ∧
    sequence_lengths st' = sequence_lengths_written created ∧
    feeds st' = feeds_written added ++ two_implicit_inputs ∧
    buffer st' = buffer_written added.
Proof.
  apply (CreateInitialFeeds_success_inv ready two_rows two_implicit_inputs 4 0 1
           CreateEncoderInputs AddToFeeds (request 8)).
  reflexivity.
Defined.

(** An Encoder-Input Expansion hook that reports an allocation failure. *)
Lemma CreateInitialFeeds_hook_failure_state_witness :
  CreateInitialFeeds ready two_rows two_implicit_inputs 4 0 1
    (failing_CreateEncoderInputs (HookError 2 "allocation failed")) AddToFeeds
    (request 8) =
  Failed (HookError 2 "allocation failed") (request 8).
Proof.
  apply (proj1 (CreateInitialFeeds_hook_failure_state ready cpu_session two_rows
                  two_implicit_inputs 4 0 1
                  (failing_CreateEncoderInputs (HookError 2 "allocation failed"))
                  (request 8) eq_refl)).
  reflexivity.
Defined.
